(** * fullstack-convex: task numbering, ownership gate and client state

    A shallow embedding of the task-manager's backend mutation
    [convex/createTask.ts] and of the client-side handlers and pages
    ([onChangeStatus], [onChangeSort], [handleAddComment], [EditTaskPage],
    [CreateTaskPage]), with the properties stated about them.

    Conventions.
    - A Convex table is the list of its documents in creation order (the
      order of the default index, by [_creationTime]); [db.insert] appends.
    - A mutation is a computation in a state-and-error monad over the
      store; a thrown error aborts it and none of its writes are kept.
    - JavaScript numbers that hold task numbers and counters are integers
      (far below 2^53, where [+ 1] is exact) and are represented in [Z]. *)

From Stdlib Require Import String ZArith List Lia Bool FinFun.
From ExtLib Require Import Structures.Monad Structures.MonadState Structures.MonadExc.
From ExtLib Require Import Data.Monads.StateMonad Data.Monads.EitherMonad.
Import ListNotations.
Import MonadNotation.
Local Open Scope monad_scope.
Local Open Scope string_scope.
Local Open Scope Z_scope.

#[local] Existing Instance Monad_stateT.

(** ** Data model *)

(** Document identifiers: opaque strings. [id.toString()] gives the string,
    [id.equals(other)] compares with another identifier and is false for
    [null]. *)
Definition Id := string.

Definition Id_toString (i : Id) : string := i.

Definition Id_equals (i : Id) (other : option Id) : bool :=
  match other with
  | Some o => String.eqb i o
  | None => false
  end.

(** The [Status] enumeration is a numeric TypeScript enum: its members are
    numbers at run time. *)
Definition Status := Z.

Inductive Visibility := PUBLIC | PRIVATE.

(** A document of the [users] table. *)
Module User.
Record t := mk { _id : Id; name : string; tokenIdentifier : string }.
End User.

(** The client-side view of a user, as carried in a task payload. *)
Module UserInfo.
Record t := mk { id : string; name : string }.
End UserInfo.

(** Modelled from the spec: the [NewTaskInfo] type of [../types], which is
    not among the sources. The payload of a task creation is (title,
    description, status, visibility, optional owner). *)
Module NewTaskInfo.
Record t := mk {
  title : string;
  description : string;
  status : Status;
  visibility : Visibility;
  owner : option UserInfo.t
}.
End NewTaskInfo.

(** A document of the [tasks] table: the fields [createTask] writes, the
    payload's fields (copied by the spread [...taskInfo]) and the [_id] the
    store assigns. *)
Module Task.
Record t := mk {
  _id : Id;
  ownerId : option Id;
  ownerName : option string;
  commentCount : Z;
  fileCount : Z;
  number : Z;
  title : string;
  description : string;
  status : Status;
  visibility : Visibility;
  owner : option UserInfo.t
}.
End Task.

(** A document of the [comments] table. *)
Module Comment.
Record t := mk {
  _id : Id;
  _creationTime : Z;
  body : string;
  author : Id;
  task : Id
}.
End Comment.

(** The store: the three tables and the count of identifiers handed out. *)
Record Db := mkDb {
  users : list User.t;
  tasks : list Task.t;
  comments : list Comment.t;
  nextId : nat
}.

(** JavaScript truthiness of a string: every string but the empty one. *)
Definition truthy (s : string) : bool := negb (String.eqb s "").

(** ** The mutation monad *)

(** A mutation reads and writes the store and may throw an error message.
    [runStateT m db] is [inl msg] when [m] throws (the store stays [db]) and
    [inr (v, db')] when it returns [v] leaving the store [db']. *)
Definition Mutation := stateT Db (sum string).

Definition throw {A} (msg : string) : Mutation A := raise msg.

(** The store after the transaction of [m] on [db]: the writes of [m]
    when it returns, [db] itself when it throws. *)
Definition commit {A} (m : Mutation A) (db : Db) : Db :=
  match runStateT m db with
  | inr (_, db') => db'
  | inl _ => db
  end.

(** [.order('desc')] lists a table from the newest document to the oldest;
    [.first()] is the first document of a listing, or [null]. *)
Definition order_desc {A} (table : list A) : list A := rev table.

Definition first {A} (listing : list A) : option A := hd_error listing.

(** The number of comments of a task held by the store. *)
Definition comments_of (db : Db) (taskId : Id) : Z :=
  Z.of_nat (length (filter (fun c => String.eqb (Comment.task c) taskId) (comments db))).

(** The comment counts of a store are coherent: the count each task
    carries is the number of the task's comments that the store holds. *)
Definition counts_coherent (db : Db) : Prop :=
  forall t, In t (tasks db) -> Task.commentCount t = comments_of db (Task._id t).

Section Backend.

(** The backend's collaborators that the sources call but do not define:
    the authentication context, the identity resolver [findUser] of
    [./getCurrentUser] (a read of the store) and the store's generator of
    fresh document identifiers. *)
Context {Auth : Type}.
Variable findUser : Db -> Auth -> option User.t.
Variable newId : nat -> Id.

(** [db.insert('tasks', fields)]: appends the document under a fresh id
    and returns the id. *)
Definition insert_task (fields : Id -> Task.t) : Mutation Id :=
  db <- get ;;
  let id := newId (nextId db) in
  put (mkDb (users db) (tasks db ++ [fields id]) (comments db) (S (nextId db))) ;;
  ret id.

(** [taskInfo.owner?.id && taskInfo.owner.id !== user._id.toString()] *)
Definition owner_mismatch (taskInfo : NewTaskInfo.t) (user : User.t) : bool :=
  match NewTaskInfo.owner taskInfo with
  | Some o =>
      truthy (UserInfo.id o)
      && negb (String.eqb (UserInfo.id o) (Id_toString (User._id user)))
  | None => false
  end.

(** [await findUser(db, auth)] *)
Definition find_user (auth : Auth) : Mutation (option User.t) :=
  db <- get ;;
  ret (findUser db auth).

(** [await db.query('tasks').order('desc').first()] *)
Definition query_tasks_desc_first : Mutation (option Task.t) :=
  db <- get ;;
  ret (first (order_desc (tasks db))).

(** convex/createTask.ts, the default mutation. The document it inserts
    lists [ownerId], [ownerName], [commentCount], [fileCount], [number] and
    then the payload's own fields, none of which bears one of these names. *)
Definition createTask (auth : Auth) (taskInfo : NewTaskInfo.t) : Mutation string :=
  user <- find_user auth ;;
  match user with
  | None => throw "Error creating task: User identity not found"
  | Some user =>
      if owner_mismatch taskInfo user
      then throw "Error creating task: Current user and task owner do not match"
      else
        lastCreatedTask <- query_tasks_desc_first ;;
        let number :=
          match lastCreatedTask with
          | Some t => Task.number t + 1
          | None => 1
          end in
        taskId <- insert_task (fun id =>
          Task.mk id
            (match NewTaskInfo.owner taskInfo with
             | Some _ => Some (User._id user)
             | None => None
             end)
            (match NewTaskInfo.owner taskInfo with
             | Some _ => Some (User.name user)
             | None => None
             end)
            0
            0
            number
            (NewTaskInfo.title taskInfo)
            (NewTaskInfo.description taskInfo)
            (NewTaskInfo.status taskInfo)
            (NewTaskInfo.visibility taskInfo)
            (NewTaskInfo.owner taskInfo)) ;;
        ret (Id_toString taskId)
  end.

(** The number [createTask] computes on a store. *)
Definition next_number (db : Db) : Z :=
  match first (order_desc (tasks db)) with
  | Some t => Task.number t + 1
  | None => 1
  end.

(** The document [createTask] inserts. *)
Definition new_task (db : Db) (user : User.t) (taskInfo : NewTaskInfo.t) : Task.t :=
  Task.mk (newId (nextId db))
    (match NewTaskInfo.owner taskInfo with Some _ => Some (User._id user) | None => None end)
    (match NewTaskInfo.owner taskInfo with Some _ => Some (User.name user) | None => None end)
    0 0 (next_number db)
    (NewTaskInfo.title taskInfo) (NewTaskInfo.description taskInfo)
    (NewTaskInfo.status taskInfo) (NewTaskInfo.visibility taskInfo)
    (NewTaskInfo.owner taskInfo).

(** [db.insert('comments', fields)] *)
Definition insert_comment (fields : Id -> Comment.t) : Mutation Id :=
  db <- get ;;
  let id := newId (nextId db) in
  put (mkDb (users db) (tasks db) (comments db ++ [fields id]) (S (nextId db))) ;;
  ret id.

(** [db.get(taskId)] on the [tasks] table: the document of a store that
    has the id, and the read inside a mutation. *)
Definition get_task (db : Db) (taskId : Id) : option Task.t :=
  find (fun t => String.eqb (Task._id t) taskId) (tasks db).

Definition db_get_task (taskId : Id) : Mutation (option Task.t) :=
  db <- get ;;
  ret (get_task db taskId).

Definition bump_commentCount (t : Task.t) : Task.t :=
  Task.mk (Task._id t) (Task.ownerId t) (Task.ownerName t)
    (Task.commentCount t + 1) (Task.fileCount t) (Task.number t)
    (Task.title t) (Task.description t) (Task.status t)
    (Task.visibility t) (Task.owner t).

(** [db.patch(taskId, fields)] on the [tasks] table. *)
Definition patch_task (taskId : Id) (f : Task.t -> Task.t) : Mutation unit :=
  db <- get ;;
  put (mkDb (users db)
         (map (fun t => if String.eqb (Task._id t) taskId then f t else t) (tasks db))
         (comments db) (nextId db)).

(** Modelled from the spec: the [saveComment] mutation, whose module
    [convex/saveComment.ts] is not among the sources (only its callers
    are). Spec 4.3: the inputs are a task identifier, a comment body (which
    callers keep non-empty) and the authenticated principal, which is
    required; the mutation appends a comment with the current timestamp
    [now] and increments the parent task's comment count by one, in one
    mutation. A comment on a task that has no record is refused. *)
Definition saveComment (now : Z) (auth : Auth) (taskId : Id) (body : string)
  : Mutation unit :=
  user <- find_user auth ;;
  match user with
  | None => throw "Error saving comment: User identity not found"
  | Some user =>
      task <- db_get_task taskId ;;
      match task with
      | None => throw "Error saving comment: Task not found"
      | Some _ =>
          _ <- insert_comment (fun id =>
                 Comment.mk id now body (User._id user) taskId) ;;
          patch_task taskId bump_commentCount
      end
  end.

(** The calls a client can make on the store, and the store after the
    transaction of each. *)
Inductive MutationCall :=
| CreateTask (auth : Auth) (taskInfo : NewTaskInfo.t)
| SaveComment (now : Z) (auth : Auth) (taskId : Id) (body : string).

Definition apply_call (db : Db) (c : MutationCall) : Db :=
  match c with
  | CreateTask auth taskInfo => commit (createTask auth taskInfo) db
  | SaveComment now auth taskId body => commit (saveComment now auth taskId body) db
  end.

(** The stores a reader can observe while the calls are applied one after
    another: the initial store and the store after each transaction. *)
Fixpoint observable (calls : list MutationCall) (db : Db) : list Db :=
  match calls with
  | [] => [db]
  | c :: rest => db :: observable rest (apply_call db c)
  end.

(** A sequence of task creations, applied one after another. *)
Definition createTasks (calls : list (Auth * NewTaskInfo.t)) (db : Db) : Db :=
  fold_left (fun d c => commit (createTask (fst c) (snd c)) d) calls db.

(** [db.patch(taskId, ...)] as [saveComment] uses it, on one document. *)
Definition patched (taskId : Id) (t : Task.t) : Task.t :=
  if String.eqb (Task._id t) taskId then bump_commentCount t else t.

(** Every identifier a task carries or a comment refers to was handed out
    by the store. *)
Definition ids_issued (db : Db) : Prop :=
  (forall t, In t (tasks db) -> exists k, (k < nextId db)%nat /\ Task._id t = newId k)
  /\ (forall c, In c (comments db) ->
        exists k, (k < nextId db)%nat /\ Comment.task c = newId k).

Definition store_ok (db : Db) : Prop := ids_issued db /\ counts_coherent db.

(** How many of the calls of a sequence return (each on the store its
    predecessors left). *)
Fixpoint successes (calls : list (Auth * NewTaskInfo.t)) (db : Db) : nat :=
  match calls with
  | [] => O
  | c :: rest =>
      match runStateT (createTask (fst c) (snd c)) db with
      | inr (_, db') => S (successes rest db')
      | inl _ => successes rest db
      end
  end.

End Backend.

(** The largest task number of a table, [None] for an empty table. *)
Definition max_number (ts : list Task.t) : option Z :=
  fold_right
    (fun t acc =>
       match acc with
       | Some m => Some (Z.max (Task.number t) m)
       | None => Some (Task.number t)
       end)
    None ts.

(** The tasks of a table carry the numbers 1, 2, ... in creation order. *)
Definition numbered (ts : list Task.t) : Prop :=
  map Task.number ts = map Z.of_nat (seq 1 (length ts)).

(** Task numbers do not decrease along creation order. *)
Definition numbers_monotone (ts : list Task.t) : Prop :=
  forall i j ti tj,
    (i <= j)%nat ->
    nth_error ts i = Some ti ->
    nth_error ts j = Some tj ->
    Task.number ti <= Task.number tj.

(** ** Client state: the task list page *)

(** Modelled from the spec: the [SortOrder] enumeration of [../../types]
    (ascending or descending). *)
Inductive SortOrder := ASC | DESC.

Definition SortOrder_eqb (a b : SortOrder) : bool :=
  match a, b with
  | ASC, ASC | DESC, DESC => true
  | _, _ => false
  end.

(** A sort key is the string that is also the [id] of its column header. *)
Definition SortKey := string.

(** The [useState] cells of [App] that the two handlers read and set. *)
Record AppState := mkAppState {
  statusFilter : list Status;
  sortKey : SortKey;
  sortOrder : SortOrder
}.

Definition setStatusFilter (f : list Status) (st : AppState) : AppState :=
  mkAppState f (sortKey st) (sortOrder st).

Definition setSortKey (k : SortKey) (st : AppState) : AppState :=
  mkAppState (statusFilter st) k (sortOrder st).

Definition setSortOrder (o : SortOrder) (st : AppState) : AppState :=
  mkAppState (statusFilter st) (sortKey st) o.

(** [event.target] of a checkbox change and of a click. *)
Record ChangeEvent := mkChangeEvent { value : string; checked : bool }.

Record MouseEvent := mkMouseEvent { target_id : string }.

(** [array.includes(s)] on statuses. *)
Definition includes (l : list Status) (s : Status) : bool := existsb (Z.eqb s) l.

(** [s === +value], where the number [+value] is [Some n] when it is the
    integer [n] and [None] otherwise (NaN, a fraction, an infinity: equal
    to no status). *)
Definition strict_eq (s : Status) (v : option Z) : bool :=
  match v with
  | Some n => Z.eqb s n
  | None => false
  end.

Section App.

(** What the page takes from elsewhere: the constant [STATUS_VALUES] of
    [../../types] and JavaScript's unary plus on strings. *)
Variable STATUS_VALUES : list Status.
Variable unary_plus : string -> option Z.

Definition onChangeStatus (st : AppState) (event : ChangeEvent) : AppState :=
  let v := unary_plus (value event) in
  let newFilter :=
    if checked event
    then filter (fun s => includes (statusFilter st) s || strict_eq s v) STATUS_VALUES
    else filter (fun s => negb (strict_eq s v)) (statusFilter st) in
  setStatusFilter newFilter st.

(** [event.stopPropagation()] changes no state of the page. *)
Definition onChangeSort (st : AppState) (event : MouseEvent) : AppState :=
  let key := target_id event in
  if String.eqb (sortKey st) key
  then setSortOrder (if SortOrder_eqb (sortOrder st) ASC then DESC else ASC) st
  else setSortOrder ASC (setSortKey key st).

End App.

(** Two lists of statuses select the same set. *)
Definition same_set (a b : list Status) : Prop := forall s, In s a <-> In s b.

(** ** Client state: the comment form *)

(** The outcome of an awaited call: resolved, or rejected with an error. *)
Inductive Promise (A : Type) :=
| Resolved (a : A)
| Rejected (err : string).
Arguments Resolved {A} a.
Arguments Rejected {A} err.

(** The [useState] cell of [Comments]. *)
Record CommentsState := mkCommentsState { newComment : string }.

Definition setNewComment (text : string) (st : CommentsState) : CommentsState :=
  mkCommentsState text.

(** [handleAddComment]: the state after the handler has run and the outcome
    of the handler's own promise ([event.preventDefault()] touches neither). [saveComment] is the mutation hook: the
    outcome of the remote call on the given arguments. The handler has no
    [try]/[catch], so a rejection of the call rejects the handler. *)
Definition handleAddComment (saveComment : Id -> string -> Promise unit)
    (taskId : Id) (st : CommentsState) : CommentsState * Promise unit :=
  let st' := setNewComment "" st in
  (st', saveComment taskId (newComment st)).

(** ** Pages *)

(** What [useQuery] gives a component: [undefined] while loading, [null]
    or a value once the query has answered. *)
Inductive QueryResult (A : Type) :=
| Undefined
| Null
| Value (a : A).
Arguments Undefined {A}.
Arguments Null {A}.
Arguments Value {A} a.

(** The initial task of the new-task page: [{ status: Status.NEW,
    visibility: Visibility.PUBLIC, ownerId: null }]. *)
Record PartialTask := mkPartialTask {
  p_status : Status;
  p_visibility : Visibility;
  p_ownerId : option Id
}.

(** The elements the two pages build. *)
#[warnings="-register-all"]
Inductive Element :=
| main (children : list Element)
| h1 (text : string)
| HeaderWithLogin (user : User.t)
| TaskDetailForm (user : User.t) (mutationName : string) (initialTaskInfo : Task.t)
| EditableTaskDetails (user : User.t) (mutationName : string) (initialTaskInfo : PartialTask).

(** A call of a component: it returns an element (or nothing, for
    [undefined]) to render, or throws. *)
Inductive Rendering :=
| Renders (e : option Element)
| Throws (msg : string).

(** pages/task/[taskNumber]/edit.tsx. [isOwner] is
    [user && task && user._id.equals(task.ownerId)]; where it holds the user
    is a value, so the last branch on [user] has one live case. *)
Definition EditTaskPage (user : QueryResult User.t) (task : QueryResult Task.t)
  : Rendering :=
  match task with
  | Null => Renders (Some (main [h1 "Task not found"]))
  | Value task =>
      let isOwner :=
        match user with
        | Value u => Id_equals (User._id u) (Task.ownerId task)
        | _ => false
        end in
      if negb isOwner
      then Renders (Some (main [h1 "You do not have permission to edit this task"]))
      else
        match user with
        | Value u =>
            Renders (Some (main [HeaderWithLogin u; TaskDetailForm u "updateTask" task]))
        | _ => Renders None
        end
  | Undefined => Renders None
  end.

(** The user is the owner of the task. *)
Definition owns (user : QueryResult User.t) (task : Task.t) : Prop :=
  exists u, user = Value u /\ Task.ownerId task = Some (User._id u).

Section NewTask.

(** [Status.NEW] of [../../convex/schema]. *)
Variable Status_NEW : Status.

(** pages/task/new.tsx *)
Definition CreateTaskPage (user : QueryResult User.t) : Rendering :=
  match user with
  | Null => Throws "User must be logged in to create a task"
  | Undefined => Renders None
  | Value u =>
      let newTaskInfo := mkPartialTask Status_NEW PUBLIC None in
      Renders (Some (main [HeaderWithLogin u;
                           EditableTaskDetails u "createTask" newTaskInfo]))
  end.

End NewTask.

(** ** Client state: the owner filter *)

(** [array.includes(s)] on owner categories, which are strings. *)
Definition includes_str (l : list string) (s : string) : bool :=
  existsb (String.eqb s) l.

Section Owner.

(** The constant [OWNER_VALUES] of [../../types]; it is also the initial
    value of the [ownerFilter] cell. *)
Variable OWNER_VALUES : list string.

(** [onChangeOwner], on the [ownerFilter] cell it reads and sets. *)
Definition onChangeOwner (ownerFilter : list string) (event : ChangeEvent)
  : list string :=
  if checked event
  then filter (fun s => includes_str ownerFilter s || String.eqb s (value event))
         OWNER_VALUES
  else filter (fun s => negb (String.eqb s (value event))) ownerFilter.

End Owner.

(** A list that selects members of [all], in the order of [all]. *)
Definition selection {A} (all l : list A) : Prop := exists P, l = filter P all.

(** ** The comment form, rendered *)

(** [onChange] of the text input: [setNewComment(event.target.value)]. *)
Definition onChangeComment (text : string) (st : CommentsState) : CommentsState :=
  setNewComment text st.

(** What [Comments] returns: the list, when [comments] is there, and the
    form, when there is a user; of the form, the [value] of the text input
    and the [disabled] attribute of the submit button. *)
Record FormView := mkFormView { input_value : string; submit_disabled : bool }.

Record CommentsView (C : Type) := mkCommentsView {
  comment_list : option (list C);
  comment_form : option FormView
}.
Arguments mkCommentsView {C} _ _.
Arguments comment_list {C} _.
Arguments comment_form {C} _.

Definition Comments {C} (user : QueryResult User.t) (comments : QueryResult (list C))
    (st : CommentsState) : CommentsView C :=
  mkCommentsView
    (match comments with
     | Value l => Some l
     | _ => None
     end)
    (match user with
     | Value _ => Some (mkFormView (newComment st) (negb (truthy (newComment st))))
     | _ => None
     end).

(** ** Server-side props *)

(** JavaScript's [!x] on a value that is a string or [undefined]. *)
Definition falsy (x : option string) : bool :=
  match x with
  | Some s => negb (truthy s)
  | None => true
  end.

(** The [slug] prop of the task list page while it is computed: a number,
    a string, [null] or [undefined]. *)
Inductive PageSlug (Num : Type) :=
| SlugNumber (n : Num)
| SlugString (s : string)
| SlugNull
| SlugUndefined.
Arguments SlugNumber {Num} n.
Arguments SlugString {Num} s.
Arguments SlugNull {Num}.
Arguments SlugUndefined {Num}.

Section Slug.

(** JavaScript numbers other than NaN, and the number a string converts
    to: [None] when the conversion gives NaN. *)
Context {Num : Type}.
Variable to_number : string -> option Num.

(** [+slug] for a [slug] that is a string or [undefined]; [undefined]
    converts to NaN. *)
Definition unary_plus_slug (slug : option string) : option Num :=
  match slug with
  | Some s => to_number s
  | None => None
  end.

(** [getServerSideProps] of the task list page, from [params.slug] (an
    array of path segments, or [undefined]) to the [slug] prop. *)
Definition getServerSideProps (params_slug : option (list string)) : PageSlug Num :=
  let segments := match params_slug with Some a => a | None => [] end in
  let slug := nth_error segments 1 in
  let pageSlug := match slug with Some s => SlugString s | None => SlugUndefined end in
  match unary_plus_slug slug with
  | Some n => SlugNumber n
  | None => if falsy slug then SlugNull else pageSlug
  end.

(** The initial value of the [taskNumber] cell of [App]:
    [typeof slug === 'number' ? slug : null]. *)
Definition initial_taskNumber (slug : PageSlug Num) : option Num :=
  match slug with
  | SlugNumber n => Some n
  | _ => None
  end.

End Slug.

(** The environment variables [MyApp.getInitialProps] reads; a variable
    that is not set is [undefined]. *)
Record Env := mkEnv {
  NEXT_PUBLIC_AUTH_DOMAIN : option string;
  AUTH0_DOMAIN : option string;
  NEXT_PUBLIC_AUTH_CLIENT : option string;
  AUTH0_CLIENT_ID : option string
}.

(** JavaScript's [a || b] on values that are strings or [undefined]. *)
Definition js_or (a b : option string) : option string :=
  if falsy a then b else a.

(** [{ ...appProps, authDomain, authClient }] *)
Record InitialProps (A : Type) := mkInitialProps {
  appProps : A;
  authDomain : option string;
  authClient : option string
}.
Arguments mkInitialProps {A} _ _ _.
Arguments appProps {A} _.
Arguments authDomain {A} _.
Arguments authClient {A} _.

(** [MyApp.getInitialProps]; [App_getInitialProps] is the outcome of the
    awaited [App.getInitialProps(appContext)]. *)
Definition getInitialProps {A} (env : Env) (App_getInitialProps : Promise A)
  : Promise (InitialProps A) :=
  let authDomain := js_or (NEXT_PUBLIC_AUTH_DOMAIN env) (AUTH0_DOMAIN env) in
  let authClient := js_or (NEXT_PUBLIC_AUTH_CLIENT env) (AUTH0_CLIENT_ID env) in
  if falsy authDomain then Rejected "Auth domain not found"
  else if falsy authClient then Rejected "Auth client not found"
  else
    match App_getInitialProps with
    | Resolved appProps => Resolved (mkInitialProps appProps authDomain authClient)
    | Rejected err => Rejected err
    end.

(** ** Sample collaborators and inputs *)

(** Modelled from the spec: the identity resolver [findUser] of
    [./getCurrentUser], which is not among the sources. It maps the
    authenticated principal, if there is one, to the persisted user record
    with its token, or to [null]. *)
Definition findUser_by_token (db : Db) (auth : option string) : option User.t :=
  match auth with
  | Some token => find (fun u => String.eqb (User.tokenIdentifier u) token) (users db)
  | None => None
  end.

(** A generator of identifiers: the n-th identifier is [n] strokes after a
    sharp sign. *)
Fixpoint tally (n : nat) : string :=
  match n with
  | O => "#"
  | S k => "i" ++ tally k
  end.

Definition ann : User.t := User.mk "u1" "Ann" "auth0|ann".

Definition ann_auth : option string := Some "auth0|ann".

Definition bob_info : UserInfo.t := UserInfo.mk "u2" "Bob".

Definition ann_info : UserInfo.t := UserInfo.mk "u1" "Ann".

Definition store0 : Db := mkDb [ann] [] [] 0.

Definition task_of (owner : option UserInfo.t) : NewTaskInfo.t :=
  NewTaskInfo.mk "Write tests" "" 0 PUBLIC owner.

Definition empty_owner_info : UserInfo.t := UserInfo.mk "" "Bob".

(** A store with two tasks, numbered 3 and 7. *)
Definition store37 : Db :=
  mkDb [ann]
    [Task.mk "#" None None 0 0 3 "Plan" "" 0 PUBLIC None;
     Task.mk "i#" (Some "u1") (Some "Ann") 0 0 7 "Build" "" 1 PRIVATE (Some ann_info)]
    [] 2.

(** The same two tasks with the newer one carrying the smaller number. *)
Definition store73 : Db :=
  mkDb [ann]
    [Task.mk "#" None None 0 0 7 "Plan" "" 0 PUBLIC None;
     Task.mk "i#" (Some "u1") (Some "Ann") 0 0 3 "Build" "" 1 PRIVATE (Some ann_info)]
    [] 2.

(** One creation followed by two comments on the new task. *)
Definition sample_calls : list (MutationCall (Auth := option string)) :=
  [CreateTask ann_auth (task_of (Some ann_info));
   SaveComment 1000 ann_auth (tally 0) "first";
   SaveComment 2000 ann_auth (tally 0) "second"].

(** A status enumeration of three members, and a unary plus that reads
    their decimal digits. *)
Definition STATUS_VALUES3 : list Status := [0; 1; 2].

Definition unary_plus3 (s : string) : option Z :=
  if String.eqb s "0" then Some 0
  else if String.eqb s "1" then Some 1
  else if String.eqb s "2" then Some 2
  else None.

(** The initial state of the page: [New] and [In Progress] selected, sorted
    by number, descending. *)
Definition app0 : AppState := mkAppState [0; 1] "number" DESC.

(** A mutation hook whose call fails. *)
Definition saveComment_failing (taskId : Id) (body : string) : Promise unit :=
  Rejected "Error saving comment: User identity not found".

(** An environment variable is set to a non-empty string; and [d] is the
    value [pub || priv] takes when one of the two is: the first when it is
    set, otherwise the second. *)
Definition is_set (x : option string) : Prop := exists s, x = Some s /\ s <> "".

Definition chosen (pub priv : option string) (d : string) : Prop :=
  d <> "" /\ (pub = Some d \/ (~ is_set pub /\ priv = Some d)).

(** An environment with the public domain set to the empty string, the
    private domain set, and only the public client set. *)
Definition sample_env : Env :=
  mkEnv (Some "") (Some "dev.auth0.example") (Some "client-1") None.

(** The filter of [app0] as a selection of [STATUS_VALUES3]. *)
Definition below_2 (s : Status) : bool := s <? 2.

(** Three owner categories. *)
Definition OWNER_VALUES3 : list string := ["Me"; "Others"; "Nobody"].

(** [store37] after Ann has created one more task, without an owner. *)
Definition store378 : Db :=
  mkDb [ann]
    (tasks store37 ++ [Task.mk "ii#" None None 0 0 8 "Write tests" "" 0 PUBLIC None])
    [] 3.

(** The task Ann creates for herself in [store0], and the store after. *)
Definition ann_task : Task.t :=
  Task.mk "#" (Some "u1") (Some "Ann") 0 0 1 "Write tests" "" 0 PUBLIC (Some ann_info).

Definition store1 : Db := mkDb [ann] [ann_task] [] 1.

Definition all_owners (s : string) : bool := true.

(** * Properties *)

(** ** The backend: createTask *)

Section BackendFacts.

Context {Auth : Type}.
Variable findUser : Db -> Auth -> option User.t.
Variable newId : nat -> Id.


Lemma createTask_run (auth : Auth) (taskInfo : NewTaskInfo.t) (db : Db) :
  runStateT (createTask findUser newId auth taskInfo) db =
  match findUser db auth with
  | None => inl "Error creating task: User identity not found"
  | Some user =>
      if owner_mismatch taskInfo user
      then inl "Error creating task: Current user and task owner do not match"
      else inr (Id_toString (newId (nextId db)),
                mkDb (users db) (tasks db ++ [new_task newId db user taskInfo])
                     (comments db) (S (nextId db)))
  end.
Proof.
  unfold createTask. cbn.
  destruct (findUser db auth) as [user|]; [|reflexivity].
  destruct (owner_mismatch taskInfo user); reflexivity.
Qed.

(** *** The newest task and the largest number *)

Lemma first_order_desc_snoc {A} (l : list A) (x : A) :
  first (order_desc (l ++ [x])) = Some x.
Proof. unfold first, order_desc. rewrite rev_app_distr. reflexivity. Qed.

Lemma first_order_desc_In {A} (l : list A) (x : A) :
  first (order_desc l) = Some x -> In x l.
Proof.
  unfold first, order_desc. intros H. apply in_rev.
  destruct (rev l) as [|y r]; [discriminate|].
  injection H as ->. now left.
Qed.

Lemma first_order_desc_cons {A} (a b : A) (l : list A) :
  first (order_desc (a :: b :: l)) = first (order_desc (b :: l)).
Proof.
  unfold first, order_desc. simpl.
  destruct (rev l) as [|y r]; reflexivity.
Qed.

Lemma numbers_monotone_tail (a : Task.t) (ts : list Task.t) :
  numbers_monotone (a :: ts) -> numbers_monotone ts.
Proof.
  intros H i j ti tj Hij Hi Hj.
  apply (H (S i) (S j) ti tj); [lia | exact Hi | exact Hj].
Qed.

Lemma numbers_monotone_head (a t : Task.t) (ts : list Task.t) :
  numbers_monotone (a :: ts) -> In t ts -> Task.number a <= Task.number t.
Proof.
  intros H Hin. apply In_nth_error in Hin as [j Hj].
  apply (H O (S j) a t); [lia | reflexivity | exact Hj].
Qed.

Lemma max_number_newest (ts : list Task.t) :
  numbers_monotone ts ->
  max_number ts = option_map Task.number (first (order_desc ts)).
Proof.
  induction ts as [|a ts IH]; intros Hmono; [reflexivity|].
  destruct ts as [|b ts]; [reflexivity|].
  rewrite first_order_desc_cons.
  change (max_number (a :: b :: ts))
    with (match max_number (b :: ts) with
          | Some m => Some (Z.max (Task.number a) m)
          | None => Some (Task.number a)
          end).
  rewrite (IH (numbers_monotone_tail _ _ Hmono)).
  destruct (first (order_desc (b :: ts))) as [l|] eqn:Hl; simpl.
  - f_equal. apply Z.max_r.
    apply (numbers_monotone_head a l (b :: ts) Hmono).
    now apply first_order_desc_In.
  - exfalso. revert Hl. unfold first, order_desc. simpl.
    destruct (rev ts ++ [b])%list eqn:E; [|discriminate].
    now destruct (rev ts).
Qed.

(** C1. A call of [createTask] that passes the authentication and owner
    checks returns and appends one task; when the numbers of the existing
    tasks do not decrease along creation order, the number of the new task
    is the largest existing number plus one, and it is 1 when there is no
    task. *)
Theorem createTask_number_is_max_plus_one
    (auth : Auth) (taskInfo : NewTaskInfo.t) (db : Db) (user : User.t) :
  findUser db auth = Some user ->
  owner_mismatch taskInfo user = false ->
  numbers_monotone (tasks db) ->
  exists t,
    runStateT (createTask findUser newId auth taskInfo) db
    = inr (Id_toString (Task._id t),
           mkDb (users db) (tasks db ++ [t]) (comments db) (S (nextId db)))
    /\ Task.number t = match max_number (tasks db) with
                       | Some m => m + 1
                       | None => 1
                       end
    /\ (tasks db = [] -> Task.number t = 1).
Proof.
  intros Huser Hown Hmono.
  exists (new_task newId db user taskInfo).
  rewrite createTask_run, Huser, Hown.
  split; [reflexivity|].
  simpl. unfold next_number.
  rewrite (max_number_newest _ Hmono).
  split.
  - now destruct (first (order_desc (tasks db))).
  - now intros ->.
Qed.

(** *** Sequences of creations *)

Lemma numbered_next (db : Db) :
  numbered (tasks db) -> next_number db = Z.of_nat (S (length (tasks db))).
Proof.
  unfold numbered, next_number.
  destruct (tasks db) as [|a l] using rev_ind; [reflexivity|]. clear IHl.
  rewrite first_order_desc_snoc, length_app. simpl length.
  rewrite Nat.add_1_r, seq_S, !map_app. intros H.
  apply app_inj_tail in H as [_ H]. simpl map in H. lia.
Qed.

Lemma numbered_snoc (ts : list Task.t) (t : Task.t) :
  numbered ts -> Task.number t = Z.of_nat (S (length ts)) -> numbered (ts ++ [t]).
Proof.
  unfold numbered. intros H Ht.
  rewrite length_app. simpl length.
  rewrite Nat.add_1_r, seq_S, !map_app, H. simpl map. now rewrite Ht.
Qed.

Lemma createTask_numbered (auth : Auth) (taskInfo : NewTaskInfo.t) (db : Db) :
  numbered (tasks db) -> numbered (tasks (commit (createTask findUser newId auth taskInfo) db)).
Proof.
  intros H. unfold commit. rewrite createTask_run.
  destruct (findUser db auth) as [user|]; [|exact H].
  destruct (owner_mismatch taskInfo user); [exact H|].
  simpl. apply numbered_snoc; [exact H|].
  simpl. now apply numbered_next.
Qed.

Lemma createTasks_numbered (calls : list (Auth * NewTaskInfo.t)) (db : Db) :
  numbered (tasks db) ->
  numbered (tasks (createTasks findUser newId calls db)).
Proof.
  revert db. induction calls as [|c calls IH]; intros db H; [exact H|].
  apply IH. now apply createTask_numbered.
Qed.

Lemma createTasks_cons (c : Auth * NewTaskInfo.t)
    (calls : list (Auth * NewTaskInfo.t)) (db : Db) :
  createTasks findUser newId (c :: calls) db
  = createTasks findUser newId calls
      (commit (createTask findUser newId (fst c) (snd c)) db).
Proof. reflexivity. Qed.

Lemma successes_cons (c : Auth * NewTaskInfo.t)
    (calls : list (Auth * NewTaskInfo.t)) (db : Db) :
  successes findUser newId (c :: calls) db
  = match runStateT (createTask findUser newId (fst c) (snd c)) db with
    | inr (_, db') => S (successes findUser newId calls db')
    | inl _ => successes findUser newId calls db
    end.
Proof. reflexivity. Qed.

Lemma createTasks_length (calls : list (Auth * NewTaskInfo.t)) (db : Db) :
  length (tasks (createTasks findUser newId calls db))
  = (length (tasks db) + successes findUser newId calls db)%nat.
Proof.
  revert db. induction calls as [|c calls IH]; intros db.
  - simpl. lia.
  - rewrite createTasks_cons, successes_cons, IH.
    unfold commit. rewrite createTask_run.
    destruct (findUser db (fst c)) as [user|]; [|reflexivity].
    destruct (owner_mismatch (snd c) user); [reflexivity|].
    cbn [tasks]. rewrite length_app. simpl length. lia.
Qed.

Lemma numbered_nth (ts : list Task.t) (i : nat) (t : Task.t) :
  numbered ts -> nth_error ts i = Some t -> Task.number t = Z.of_nat i + 1.
Proof.
  unfold numbered. intros H Hi.
  assert (Hlt : (i < length ts)%nat) by (apply nth_error_Some; congruence).
  apply (map_nth_error Task.number) in Hi.
  rewrite H in Hi.
  rewrite (map_nth_error Z.of_nat i (seq 1 (length ts)) (d := S i)) in Hi.
  - injection Hi as <-. lia.
  - rewrite nth_error_nth' with (d := O) by (now rewrite length_seq).
    now rewrite seq_nth.
Qed.

Lemma numbered_NoDup (ts : list Task.t) :
  numbered ts -> NoDup (map Task.number ts).
Proof.
  unfold numbered. intros ->.
  apply Injective_map_NoDup; [|apply seq_NoDup].
  intros x y. apply Nat2Z.inj.
Qed.

(** C2. Task creations applied one after another to a store without
    tasks: every call that returns creates one task, the i-th task created
    has the number i, and no two tasks share a number. *)
Theorem createTasks_numbers_sequential
    (us : list User.t) (cs : list Comment.t) (n : nat)
    (calls : list (Auth * NewTaskInfo.t)) :
  let db0 := mkDb us [] cs n in
  let db' := createTasks findUser newId calls db0 in
  length (tasks db') = successes findUser newId calls db0
  /\ (forall i t, nth_error (tasks db') i = Some t -> Task.number t = Z.of_nat i + 1)
  /\ NoDup (map Task.number (tasks db')).
Proof.
  intros db0 db'.
  assert (H : numbered (tasks db')) by (now apply createTasks_numbered).
  split; [|split].
  - unfold db'. rewrite createTasks_length. reflexivity.
  - intros i t. now apply numbered_nth.
  - now apply numbered_NoDup.
Qed.

(** *** The owner check *)

(** C3, as amended. A call whose payload states an owner with a non-empty
    id that differs from the id of the resolved principal throws the
    mismatch error, and the store stays as it was. *)
Theorem createTask_owner_mismatch_rejected
    (auth : Auth) (taskInfo : NewTaskInfo.t) (db : Db)
    (user : User.t) (o : UserInfo.t) :
  findUser db auth = Some user ->
  NewTaskInfo.owner taskInfo = Some o ->
  UserInfo.id o <> "" ->
  UserInfo.id o <> Id_toString (User._id user) ->
  runStateT (createTask findUser newId auth taskInfo) db
  = inl "Error creating task: Current user and task owner do not match"
  /\ commit (createTask findUser newId auth taskInfo) db = db.
Proof.
  intros Huser Ho Hne Hdiff.
  assert (Hmis : owner_mismatch taskInfo user = true).
  { unfold owner_mismatch, truthy. rewrite Ho.
    apply String.eqb_neq in Hne, Hdiff. now rewrite Hne, Hdiff. }
  unfold commit. rewrite createTask_run, Huser, Hmis. now split.
Qed.

(** *** The owner fields *)

(** C8. The task a returning call of [createTask] persists has its owner
    id and owner name both null when the payload states no owner, and both
    set, to the id and the name of the resolved user, when it states one. *)
Theorem createTask_owner_fields_coherent
    (auth : Auth) (taskInfo : NewTaskInfo.t) (db db' : Db) (r : string) :
  runStateT (createTask findUser newId auth taskInfo) db = inr (r, db') ->
  exists user t,
    findUser db auth = Some user
    /\ tasks db' = (tasks db ++ [t])%list
    /\ (NewTaskInfo.owner taskInfo = None ->
        Task.ownerId t = None /\ Task.ownerName t = None)
    /\ (NewTaskInfo.owner taskInfo <> None ->
        Task.ownerId t = Some (User._id user)
        /\ Task.ownerName t = Some (User.name user))
    /\ (Task.ownerId t = None <-> Task.ownerName t = None).
Proof.
  rewrite createTask_run. intros H.
  destruct (findUser db auth) as [user|]; [|discriminate].
  destruct (owner_mismatch taskInfo user); [discriminate|].
  injection H as _ <-.
  exists user, (new_task newId db user taskInfo).
  split; [reflexivity|]. split; [reflexivity|]. simpl.
  destruct (NewTaskInfo.owner taskInfo) as [o|].
  - repeat split; intros; congruence.
  - repeat split; intros; congruence.
Qed.

(** *** Comments and their count *)

Lemma saveComment_run (now : Z) (auth : Auth) (taskId : Id) (body : string) (db : Db) :
  runStateT (saveComment findUser newId now auth taskId body) db =
  match findUser db auth with
  | None => inl "Error saving comment: User identity not found"
  | Some user =>
      match get_task db taskId with
      | None => inl "Error saving comment: Task not found"
      | Some _ =>
          inr (tt, mkDb (users db) (map (patched taskId) (tasks db))
                     (comments db
                      ++ [Comment.mk (newId (nextId db)) now body (User._id user) taskId])
                     (S (nextId db)))
      end
  end.
Proof.
  unfold saveComment. cbn.
  destruct (findUser db auth) as [user|]; [|reflexivity]. cbn.
  destruct (get_task db taskId); reflexivity.
Qed.

Lemma patched_id (taskId : Id) (t : Task.t) :
  Task._id (patched taskId t) = Task._id t.
Proof. unfold patched. now destruct (String.eqb (Task._id t) taskId). Qed.

Lemma get_task_patched (db : Db) (taskId : Id) (us : list User.t)
    (cs : list Comment.t) (n : nat) :
  get_task (mkDb us (map (patched taskId) (tasks db)) cs n) taskId
  = option_map bump_commentCount (get_task db taskId).
Proof.
  unfold get_task. cbn [tasks].
  induction (tasks db) as [|t ts IH]; [reflexivity|].
  cbn [map find]. rewrite patched_id.
  destruct (String.eqb (Task._id t) taskId) eqn:E; [|exact IH].
  unfold patched. now rewrite E.
Qed.

Lemma filter_none {A} (f : A -> bool) (l : list A) :
  (forall x, In x l -> f x = false) -> filter f l = [].
Proof.
  induction l as [|a l IH]; intros H; [reflexivity|].
  simpl. rewrite (H a (or_introl eq_refl)). apply IH.
  intros x Hx. apply H. now right.
Qed.

Lemma comments_of_snoc (us : list User.t) (ts : list Task.t)
    (cs : list Comment.t) (n : nat) (c : Comment.t) (taskId : Id) :
  comments_of (mkDb us ts (cs ++ [c]) n) taskId
  = comments_of (mkDb us ts cs n) taskId
    + (if String.eqb (Comment.task c) taskId then 1 else 0).
Proof.
  unfold comments_of. cbn [comments]. rewrite filter_app, length_app.
  cbn [filter]. destruct (String.eqb (Comment.task c) taskId); simpl length; lia.
Qed.

Lemma store_ok_createTask (auth : Auth) (taskInfo : NewTaskInfo.t) (db : Db) :
  (forall a b, newId a = newId b -> a = b) ->
  store_ok newId db -> store_ok newId (commit (createTask findUser newId auth taskInfo) db).
Proof.
  intros Hinj [[Ht Hc] Hcount]. unfold commit. rewrite createTask_run.
  destruct (findUser db auth) as [user|]; [|now repeat split].
  destruct (owner_mismatch taskInfo user); [now repeat split|].
  repeat split; cbn [tasks comments nextId].
  - intros t Hin. apply in_app_or in Hin as [Hin|[<-|[]]].
    + destruct (Ht t Hin) as [k [Hk Hid]]. exists k. split; [lia|exact Hid].
    + exists (nextId db). split; [lia|reflexivity].
  - intros c Hin. destruct (Hc c Hin) as [k [Hk Hid]]. exists k. split; [lia|exact Hid].
  - intros t Hin. cbn [tasks] in Hin.
    apply in_app_or in Hin as [Hin|[<-|[]]].
    + now apply Hcount.
    + unfold comments_of. cbn [comments new_task Task._id Task.commentCount].
      rewrite filter_none; [reflexivity|].
      intros c Hin. destruct (Hc c Hin) as [k [Hk Hid]].
      apply String.eqb_neq. rewrite Hid.
      intros E. apply Hinj in E. lia.
Qed.

Lemma store_ok_saveComment (now : Z) (auth : Auth) (taskId : Id) (body : string)
    (db : Db) :
  store_ok newId db -> store_ok newId (commit (saveComment findUser newId now auth taskId body) db).
Proof.
  intros [[Ht Hc] Hcount]. unfold commit. rewrite saveComment_run.
  destruct (findUser db auth) as [user|]; [|now repeat split].
  destruct (get_task db taskId) as [task|] eqn:Hget; [|now repeat split].
  repeat split; cbn [tasks comments nextId].
  - intros t' Hin. apply in_map_iff in Hin as [t [<- Hin]].
    rewrite patched_id.
    destruct (Ht t Hin) as [k [Hk Hid]]. exists k. split; [lia|exact Hid].
  - intros c Hin. apply in_app_or in Hin as [Hin|[<-|[]]].
    + destruct (Hc c Hin) as [k [Hk Hid]]. exists k. split; [lia|exact Hid].
    + apply find_some in Hget as [Hin E]. apply String.eqb_eq in E.
      destruct (Ht task Hin) as [k [Hk Hid]].
      exists k. split; [lia|]. cbn. congruence.
  - intros t' Hin. cbn [tasks] in Hin.
    apply in_map_iff in Hin as [t [<- Hin]].
    rewrite patched_id, comments_of_snoc. cbn [Comment.task].
    specialize (Hcount t Hin). unfold comments_of in *. cbn [comments].
    unfold patched. rewrite (String.eqb_sym taskId).
    destruct (String.eqb (Task._id t) taskId); cbn; lia.
Qed.

Lemma store_ok_observable (calls : list (MutationCall (Auth := Auth))) (db db' : Db) :
  (forall a b, newId a = newId b -> a = b) ->
  store_ok newId db -> In db' (observable findUser newId calls db) -> store_ok newId db'.
Proof.
  intros Hinj. revert db.
  induction calls as [|c calls IH]; intros db Hok Hin.
  - destruct Hin as [<-|[]]. exact Hok.
  - destruct Hin as [<-|Hin]; [exact Hok|].
    apply (IH (apply_call findUser newId db c)); [|exact Hin].
    destruct c as [auth taskInfo|now auth taskId body]; cbn [apply_call].
    + now apply store_ok_createTask.
    + now apply store_ok_saveComment.
Qed.

(** C4. With store identifiers that are never handed out twice:
    a comment append by a resolved principal on an existing task returns,
    adds exactly one comment of that task and raises the task's comment
    count by exactly 1, in one transaction; and in every store a reader
    can observe while creations and appends are applied one after another,
    starting without tasks and comments, each task's comment count is the
    number of its comments, so a reader sees neither change without the
    other. *)
Theorem saveComment_count_atomic :
  (forall a b, newId a = newId b -> a = b) ->
  (forall now auth taskId body db user task,
      findUser db auth = Some user ->
      get_task db taskId = Some task ->
      exists c db',
        runStateT (saveComment findUser newId now auth taskId body) db = inr (tt, db')
        /\ comments db' = (comments db ++ [c])%list
        /\ Comment.task c = taskId
        /\ Comment.body c = body
        /\ Comment._creationTime c = now
        /\ option_map Task.commentCount (get_task db' taskId)
           = Some (Task.commentCount task + 1)
        /\ comments_of db' taskId = comments_of db taskId + 1)
  /\ (forall us n calls db,
        In db (observable findUser newId calls (mkDb us [] [] n)) ->
        counts_coherent db).
Proof.
  intros Hinj. split.
  - intros now auth taskId body db user task Huser Hget.
    eexists. eexists.
    rewrite saveComment_run, Huser, Hget.
    split; [reflexivity|]. cbn [comments].
    split; [reflexivity|]. cbn [Comment.task Comment.body Comment._creationTime].
    repeat (split; [reflexivity|]).
    rewrite get_task_patched, Hget, comments_of_snoc. cbn [Comment.task].
    rewrite String.eqb_refl. split; [reflexivity|].
    unfold comments_of. cbn [comments]. reflexivity.
  - intros us n calls db Hin.
    apply (store_ok_observable calls (mkDb us [] [] n) db Hinj); [|exact Hin].
    repeat split; cbn; intros ? [].
Qed.

End BackendFacts.

(** *** Concrete runs of the backend *)

Lemma tally_inj (a b : nat) : tally a = tally b -> a = b.
Proof.
  revert b. induction a as [|a IH]; intros [|b] H; simpl in H;
    try discriminate; [reflexivity|].
  injection H as H. f_equal. now apply IH.
Qed.

Lemma numbered_monotone (ts : list Task.t) : numbered ts -> numbers_monotone ts.
Proof.
  intros H i j ti tj Hij Hi Hj.
  rewrite (numbered_nth ts i ti H Hi), (numbered_nth ts j tj H Hj). lia.
Qed.

(** The stores that creations alone build satisfy the premise of C1. *)
Lemma createTasks_monotone {Auth : Type} (findUser : Db -> Auth -> option User.t)
    (newId : nat -> Id) (us : list User.t) (cs : list Comment.t) (n : nat)
    (calls : list (Auth * NewTaskInfo.t)) :
  numbers_monotone (tasks (createTasks findUser newId calls (mkDb us [] cs n))).
Proof. apply numbered_monotone. now apply createTasks_numbered. Qed.

Lemma store37_monotone : numbers_monotone (tasks store37).
Proof.
  intros i j ti tj Hij Hi Hj.
  destruct i as [|[|i]]; destruct j as [|[|j]]; simpl in Hi, Hj;
    try lia; try (now destruct i); try (now destruct j);
    injection Hi as <-; injection Hj as <-; simpl; lia.
Qed.

(** C1 on [store37], whose newest task carries the largest number, 7: the
    new task gets 8. *)
Lemma createTask_number_is_max_plus_one_witness :
  exists t,
    runStateT (createTask findUser_by_token tally ann_auth (task_of None)) store37
    = inr (Id_toString (Task._id t),
           mkDb (users store37) (tasks store37 ++ [t]) (comments store37)
             (S (nextId store37)))
    /\ Task.number t = match max_number (tasks store37) with
                       | Some m => m + 1
                       | None => 1
                       end
    /\ (tasks store37 = [] -> Task.number t = 1).
Proof.
  apply (createTask_number_is_max_plus_one findUser_by_token tally
           ann_auth (task_of None) store37 ann).
  - reflexivity.
  - reflexivity.
  - exact store37_monotone.
Defined.

(** Without the premise the newest task decides: on [store73] the new task
    gets 4, not 8. *)
Example createTask_reads_newest :
  option_map (fun r => map Task.number (tasks (snd r)))
    (match runStateT (createTask findUser_by_token tally ann_auth (task_of None)) store73
     with inr r => Some r | inl _ => None end)
  = Some [7; 3; 4].
Proof. reflexivity. Qed.

(** Three creations number the tasks 1, 2, 3; a refused call in between
    leaves no gap. *)
Example createTasks_three :
  map Task.number
    (tasks (createTasks findUser_by_token tally
              [(ann_auth, task_of None);
               (None, task_of None);
               (ann_auth, task_of (Some bob_info));
               (ann_auth, task_of (Some ann_info));
               (ann_auth, task_of None)]
              store0))
  = [1; 2; 3].
Proof. reflexivity. Qed.

(** C3, the counterexample: the payload's owner has the empty id, which
    differs from the id of the resolved principal, and the call returns and
    persists a task. *)
Lemma createTask_empty_owner_id_accepted :
  findUser_by_token store0 ann_auth = Some ann
  /\ NewTaskInfo.owner (task_of (Some empty_owner_info)) = Some empty_owner_info
  /\ UserInfo.id empty_owner_info <> Id_toString (User._id ann)
  /\ runStateT (createTask findUser_by_token tally ann_auth
                  (task_of (Some empty_owner_info))) store0
     = inr ("#",
            mkDb [ann]
              [Task.mk "#" (Some "u1") (Some "Ann") 0 0 1 "Write tests" "" 0 PUBLIC
                 (Some empty_owner_info)]
              [] 1).
Proof.
  split; [reflexivity|]. split; [reflexivity|].
  split; [discriminate|reflexivity].
Qed.

(** C3 as amended, on a payload that names Bob as owner while Ann is the
    principal. *)
Lemma createTask_owner_mismatch_rejected_witness :
  runStateT (createTask findUser_by_token tally ann_auth (task_of (Some bob_info))) store0
  = inl "Error creating task: Current user and task owner do not match"
  /\ commit (createTask findUser_by_token tally ann_auth (task_of (Some bob_info))) store0
     = store0.
Proof.
  apply (createTask_owner_mismatch_rejected findUser_by_token tally
           ann_auth (task_of (Some bob_info)) store0 ann bob_info).
  - reflexivity.
  - reflexivity.
  - discriminate.
  - discriminate.
Defined.

(** C8 on the task Ann creates for herself in [store0]. *)
Lemma createTask_owner_fields_coherent_witness :
  exists user t,
    findUser_by_token store0 ann_auth = Some user
    /\ tasks (mkDb [ann]
                [Task.mk "#" (Some "u1") (Some "Ann") 0 0 1 "Write tests" "" 0 PUBLIC
                   (Some ann_info)] [] 1)
       = (tasks store0 ++ [t])%list
    /\ (NewTaskInfo.owner (task_of (Some ann_info)) = None ->
        Task.ownerId t = None /\ Task.ownerName t = None)
    /\ (NewTaskInfo.owner (task_of (Some ann_info)) <> None ->
        Task.ownerId t = Some (User._id user)
        /\ Task.ownerName t = Some (User.name user))
    /\ (Task.ownerId t = None <-> Task.ownerName t = None).
Proof.
  apply (createTask_owner_fields_coherent findUser_by_token tally
           ann_auth (task_of (Some ann_info)) store0 _ "#").
  reflexivity.
Defined.

(** One creation and two comments: the stores a reader can observe. *)
Example sample_calls_observed :
  map (fun db => (map Task.commentCount (tasks db), length (comments db)))
    (observable findUser_by_token tally sample_calls store0)
  = [([], 0%nat); ([0], 0%nat); ([1], 1%nat); ([2], 2%nat)].
Proof. reflexivity. Qed.

(** C4 with the identifiers of [tally], on the store [sample_calls] leave. *)
Lemma saveComment_count_atomic_witness :
  (forall a b, tally a = tally b -> a = b)
  /\ counts_coherent
       (fold_left (apply_call findUser_by_token tally) sample_calls store0).
Proof.
  split; [exact tally_inj|].
  apply (proj2 (saveComment_count_atomic findUser_by_token tally tally_inj)
           [ann] O sample_calls).
  right. right. right. left. reflexivity.
Defined.

(** ** The task list page *)

Section AppFacts.

Variable STATUS_VALUES : list Status.
Variable unary_plus : string -> option Z.

Lemma includes_In (l : list Status) (s : Status) : includes l s = true <-> In s l.
Proof.
  unfold includes. rewrite existsb_exists. split.
  - intros [x [Hin E]]. apply Z.eqb_eq in E. now subst.
  - intros Hin. exists s. split; [exact Hin|apply Z.eqb_refl].
Qed.

(** What each position of the checkbox does to the selected set. *)
Lemma onChangeStatus_unchecked (st : AppState) (value : string) (v s : Status) :
  unary_plus value = Some v ->
  In s (statusFilter (onChangeStatus STATUS_VALUES unary_plus st (mkChangeEvent value false)))
  <-> In s (statusFilter st) /\ s <> v.
Proof.
  intros Hv. unfold onChangeStatus. cbn. rewrite Hv, filter_In. cbn.
  rewrite negb_true_iff, Z.eqb_neq. reflexivity.
Qed.

Lemma onChangeStatus_checked (st : AppState) (value : string) (v s : Status) :
  unary_plus value = Some v ->
  In s (statusFilter (onChangeStatus STATUS_VALUES unary_plus st (mkChangeEvent value true)))
  <-> In s STATUS_VALUES /\ (In s (statusFilter st) \/ s = v).
Proof.
  intros Hv. unfold onChangeStatus. cbn. rewrite Hv, filter_In. cbn.
  rewrite orb_true_iff, includes_In, Z.eqb_eq. reflexivity.
Qed.

(** The handler keeps the selection within [STATUS_VALUES]. *)
Lemma onChangeStatus_incl (st : AppState) (event : ChangeEvent) :
  incl (statusFilter st) STATUS_VALUES ->
  incl (statusFilter (onChangeStatus STATUS_VALUES unary_plus st event)) STATUS_VALUES.
Proof.
  intros H s. unfold onChangeStatus. cbn.
  destruct (checked event); rewrite filter_In.
  - now intros [Hin _].
  - intros [Hin _]. now apply H.
Qed.

(** C5. In a state whose selected statuses are members of the enumeration
    [STATUS_VALUES] and where the status [v] is selected, the change event
    of [v]'s checkbox with [checked = false] followed by the one with
    [checked = true] gives back the set of selected statuses the state
    had (and leaves the sort state alone). *)
Theorem onChangeStatus_off_then_on
    (st : AppState) (value : string) (v : Status) :
  unary_plus value = Some v ->
  In v (statusFilter st) ->
  incl (statusFilter st) STATUS_VALUES ->
  let off := onChangeStatus STATUS_VALUES unary_plus st (mkChangeEvent value false) in
  let on := onChangeStatus STATUS_VALUES unary_plus off (mkChangeEvent value true) in
  ~ In v (statusFilter off)
  /\ same_set (statusFilter on) (statusFilter st)
  /\ sortKey on = sortKey st
  /\ sortOrder on = sortOrder st.
Proof.
  intros Hv Hsel Hincl off on.
  split; [|split; [|split; reflexivity]].
  - unfold off. rewrite (onChangeStatus_unchecked st value v v Hv). tauto.
  - intros s. unfold on.
    rewrite (onChangeStatus_checked off value v s Hv).
    unfold off. rewrite (onChangeStatus_unchecked st value v s Hv).
    split.
    + intros [_ [[Hin _] | ->]]; assumption.
    + intros Hin. split; [now apply Hincl|].
      destruct (Z.eq_dec s v) as [-> | Hne]; [now right|now left].
Qed.

(** C6. A click on the column that is the current sort key keeps the key
    and reverses the order; a click on another column makes that column the
    key and the order ascending. The status filter is not touched. *)
Theorem onChangeSort_click (st : AppState) (column : string) :
  let st' := onChangeSort st (mkMouseEvent column) in
  (column = sortKey st ->
   sortKey st' = sortKey st
   /\ (sortOrder st = ASC -> sortOrder st' = DESC)
   /\ (sortOrder st = DESC -> sortOrder st' = ASC))
  /\ (column <> sortKey st -> sortKey st' = column /\ sortOrder st' = ASC)
  /\ statusFilter st' = statusFilter st.
Proof.
  unfold onChangeSort. cbn.
  destruct (String.eqb_spec (sortKey st) column) as [E|E].
  - split; [|split]; [intros _|congruence|reflexivity].
    cbn. destruct (sortOrder st); repeat split; intros; congruence.
  - split; [|split]; [congruence|intros _|reflexivity].
    now split.
Qed.

End AppFacts.

(** C5 on the initial state of the page, for the checkbox of status 1. *)
Lemma onChangeStatus_off_then_on_witness :
  let off := onChangeStatus STATUS_VALUES3 unary_plus3 app0 (mkChangeEvent "1" false) in
  let on := onChangeStatus STATUS_VALUES3 unary_plus3 off (mkChangeEvent "1" true) in
  ~ In 1 (statusFilter off)
  /\ same_set (statusFilter on) (statusFilter app0)
  /\ sortKey on = sortKey app0
  /\ sortOrder on = sortOrder app0.
Proof.
  apply (onChangeStatus_off_then_on STATUS_VALUES3 unary_plus3 app0 "1" 1).
  - reflexivity.
  - simpl. tauto.
  - intros s Hs. simpl in *. tauto.
Defined.

(** The same pair of events on the initial state, evaluated. *)
Example onChangeStatus_off_then_on_run :
  map statusFilter
    [onChangeStatus STATUS_VALUES3 unary_plus3 app0 (mkChangeEvent "1" false);
     onChangeStatus STATUS_VALUES3 unary_plus3
       (onChangeStatus STATUS_VALUES3 unary_plus3 app0 (mkChangeEvent "1" false))
       (mkChangeEvent "1" true)]
  = [[0]; [0; 1]].
Proof. reflexivity. Qed.

Example onChangeSort_run :
  (onChangeSort app0 (mkMouseEvent "number"),
   onChangeSort app0 (mkMouseEvent "title"))
  = (mkAppState [0; 1] "number" ASC, mkAppState [0; 1] "title" ASC).
Proof. reflexivity. Qed.

(** ** The comment form *)

(** C9, the counterexample: the user had entered a text, the mutation
    fails, and the text is gone after the handler has run. *)
Lemma handleAddComment_failure_clears_text :
  let st := mkCommentsState "Looks good to me" in
  saveComment_failing "#" (newComment st)
  = Rejected "Error saving comment: User identity not found"
  /\ newComment (fst (handleAddComment saveComment_failing "#" st)) = ""
  /\ fst (handleAddComment saveComment_failing "#" st) <> st.
Proof.
  cbn. split; [reflexivity|]. split; [reflexivity|]. discriminate.
Qed.

(** C9, as amended. When the mutation fails, the handler has already reset
    the entered text to the empty string, and the failure is not caught:
    it rejects the handler's own promise with the mutation's error. *)
Theorem handleAddComment_failure
    (saveComment : Id -> string -> Promise unit) (taskId : Id)
    (st : CommentsState) (err : string) :
  saveComment taskId (newComment st) = Rejected err ->
  newComment (fst (handleAddComment saveComment taskId st)) = ""
  /\ snd (handleAddComment saveComment taskId st) = Rejected err.
Proof.
  intros H. unfold handleAddComment. cbn. now rewrite H.
Qed.

(** C9 as amended, on a failing mutation hook. *)
Lemma handleAddComment_failure_witness :
  newComment (fst (handleAddComment saveComment_failing "#"
                     (mkCommentsState "Looks good to me"))) = ""
  /\ snd (handleAddComment saveComment_failing "#"
            (mkCommentsState "Looks good to me"))
     = Rejected "Error saving comment: User identity not found".
Proof.
  apply (handleAddComment_failure saveComment_failing "#"
           (mkCommentsState "Looks good to me")).
  reflexivity.
Defined.

(** ** The pages *)

Lemma Id_equals_owner (i : Id) (other : option Id) :
  Id_equals i other = true <-> other = Some i.
Proof.
  unfold Id_equals. destruct other as [o|]; [|split; discriminate].
  rewrite String.eqb_eq. split; congruence.
Qed.

(** C7. Whatever the two queries of the edit page gave: when the task
    query gave [null] the page renders the heading "Task not found"; when
    it gave a task the user does not own (no user, a user still loading, or
    another user) the page renders the heading "You do not have permission
    to edit this task"; and the page never throws. *)
Theorem EditTaskPage_expected_errors_are_states
    (user : QueryResult User.t) (task : QueryResult Task.t) :
  (task = Null ->
   EditTaskPage user task = Renders (Some (main [h1 "Task not found"])))
  /\ (forall t, task = Value t -> ~ owns user t ->
        EditTaskPage user task
        = Renders (Some (main [h1 "You do not have permission to edit this task"])))
  /\ (forall msg, EditTaskPage user task <> Throws msg).
Proof.
  split; [|split].
  - now intros ->.
  - intros t -> Hnot. unfold EditTaskPage.
    destruct user as [| |u]; try reflexivity.
    destruct (Id_equals (User._id u) (Task.ownerId t)) eqn:E; [|reflexivity].
    exfalso. apply Hnot. exists u. split; [reflexivity|].
    now apply Id_equals_owner.
  - intros msg. unfold EditTaskPage.
    destruct task as [| |t]; try discriminate.
    destruct user as [| |u]; try discriminate.
    destruct (Id_equals (User._id u) (Task.ownerId t)); discriminate.
Qed.

(** The owner does get the form. *)
Lemma EditTaskPage_owner (u : User.t) (t : Task.t) :
  owns (Value u) t ->
  EditTaskPage (Value u) (Value t)
  = Renders (Some (main [HeaderWithLogin u; TaskDetailForm u "updateTask" t])).
Proof.
  intros [u' [E Hown]]. injection E as <-.
  unfold EditTaskPage. now rewrite (proj2 (Id_equals_owner _ _) Hown).
Qed.

(** C10. The new-task page throws "User must be logged in to create a
    task" when the current-user query gave [null], and in no other case:
    while the query is loading it renders nothing, and with a user it
    renders the form. *)
Theorem CreateTaskPage_null_user_throws
    (Status_NEW : Status) (user : QueryResult User.t) :
  CreateTaskPage Status_NEW Null
  = Throws "User must be logged in to create a task"
  /\ ((exists msg, CreateTaskPage Status_NEW user = Throws msg) <-> user = Null)
  /\ (forall e, CreateTaskPage Status_NEW Null <> Renders e).
Proof.
  split; [reflexivity|]. split; [|discriminate].
  split.
  - intros [msg H]. destruct user; [discriminate|reflexivity|discriminate].
  - intros ->. now eexists.
Qed.

(** * More of the code *)

(** ** createTask: outcomes, frame and invariants *)

Section BackendMore.

Context {Auth : Type}.
Variable findUser : Db -> Auth -> option User.t.
Variable newId : nat -> Id.

Lemma owner_mismatch_false (taskInfo : NewTaskInfo.t) (user : User.t) :
  owner_mismatch taskInfo user = false
  <-> match NewTaskInfo.owner taskInfo with
      | None => True
      | Some o => UserInfo.id o = "" \/ UserInfo.id o = Id_toString (User._id user)
      end.
Proof.
  unfold owner_mismatch, truthy.
  destruct (NewTaskInfo.owner taskInfo) as [o|]; [|tauto].
  destruct (String.eqb_spec (UserInfo.id o) "") as [E|E];
    destruct (String.eqb_spec (UserInfo.id o) (Id_toString (User._id user))) as [F|F];
    cbn; split; intros H; try tauto; try discriminate.
Qed.

(** X1. [createTask] returns exactly when a principal is resolved and the
    payload states no owner, an owner with the empty id, or an owner whose
    id is the principal's. *)
Theorem createTask_returns_iff (auth : Auth) (taskInfo : NewTaskInfo.t) (db : Db) :
  (exists r db', runStateT (createTask findUser newId auth taskInfo) db = inr (r, db'))
  <-> exists user,
        findUser db auth = Some user
        /\ match NewTaskInfo.owner taskInfo with
           | None => True
           | Some o =>
               UserInfo.id o = "" \/ UserInfo.id o = Id_toString (User._id user)
           end.
Proof.
  rewrite createTask_run. split.
  - intros [r [db' H]].
    destruct (findUser db auth) as [user|]; [|discriminate].
    exists user. split; [reflexivity|].
    apply owner_mismatch_false.
    now destruct (owner_mismatch taskInfo user).
  - intros [user [-> H]]. apply owner_mismatch_false in H. rewrite H.
    now eexists; eexists.
Qed.

(** X2. When [createTask] throws, the store is as it was, and the error is
    the identity error when no principal is resolved (whatever the payload)
    and the mismatch error otherwise, in which case the payload's owner has
    a non-empty id other than the principal's. *)
Theorem createTask_throws_unchanged
    (auth : Auth) (taskInfo : NewTaskInfo.t) (db : Db) (msg : string) :
  runStateT (createTask findUser newId auth taskInfo) db = inl msg ->
  commit (createTask findUser newId auth taskInfo) db = db
  /\ ((findUser db auth = None
       /\ msg = "Error creating task: User identity not found")
      \/ (exists user o,
            findUser db auth = Some user
            /\ NewTaskInfo.owner taskInfo = Some o
            /\ UserInfo.id o <> ""
            /\ UserInfo.id o <> Id_toString (User._id user)
            /\ msg = "Error creating task: Current user and task owner do not match")).
Proof.
  intros H. unfold commit. rewrite H. split; [reflexivity|].
  rewrite createTask_run in H.
  destruct (findUser db auth) as [user|].
  - right. destruct (owner_mismatch taskInfo user) eqn:E; [|discriminate].
    injection H as <-. unfold owner_mismatch, truthy in E.
    destruct (NewTaskInfo.owner taskInfo) as [o|]; [|discriminate].
    apply andb_true_iff in E as [E1 E2].
    apply negb_true_iff, String.eqb_neq in E1, E2.
    exists user, o. now repeat split.
  - left. injection H as <-. now split.
Qed.

(** X3. A sequence of creations only appends: the users and the comments
    stay, the tasks that were there stay as they were and in place, one task
    is added per returning call, and the identifier counter advances by as
    much. *)
Theorem createTasks_frame (calls : list (Auth * NewTaskInfo.t)) (db : Db) :
  let db' := createTasks findUser newId calls db in
  users db' = users db
  /\ comments db' = comments db
  /\ nextId db' = (nextId db + successes findUser newId calls db)%nat
  /\ exists new,
       tasks db' = (tasks db ++ new)%list
       /\ length new = successes findUser newId calls db.
Proof.
  revert db. induction calls as [|c calls IH]; intros db; cbv zeta.
  - cbn. repeat split; [lia|]. exists []. now rewrite app_nil_r.
  - rewrite createTasks_cons, successes_cons.
    specialize (IH (commit (createTask findUser newId (fst c) (snd c)) db)).
    cbv zeta in IH. destruct IH as [Hu [Hc [Hn [new [Ht Hl]]]]].
    rewrite Hu, Hc, Hn, Ht. clear Hu Hc Hn Ht.
    unfold commit in *. rewrite createTask_run in *.
    destruct (findUser db (fst c)) as [user|].
    + destruct (owner_mismatch (snd c) user).
      * repeat split. now exists new.
      * cbn [users comments nextId tasks]. repeat split; [lia|].
        exists (new_task newId db user (snd c) :: new).
        rewrite <- app_assoc. split; [reflexivity|]. cbn. now rewrite Hl.
    + repeat split. now exists new.
Qed.

(** X4. On a store whose task numbers do not decrease along creation
    order, a returning call gives the new task a number above every
    existing one, and the numbers still do not decrease. *)
Theorem createTask_keeps_monotone
    (auth : Auth) (taskInfo : NewTaskInfo.t) (db db' : Db) (r : string) :
  numbers_monotone (tasks db) ->
  runStateT (createTask findUser newId auth taskInfo) db = inr (r, db') ->
  exists t,
    tasks db' = (tasks db ++ [t])%list
    /\ (forall t0, In t0 (tasks db) -> Task.number t0 < Task.number t)
    /\ numbers_monotone (tasks db').
Proof.
  intros Hmono H. rewrite createTask_run in H.
  destruct (findUser db auth) as [user|]; [|discriminate].
  destruct (owner_mismatch taskInfo user); [discriminate|].
  injection H as _ <-. exists (new_task newId db user taskInfo).
  cbn [tasks]. split; [reflexivity|].
  assert (Hlt : forall t0, In t0 (tasks db) ->
                Task.number t0 < Task.number (new_task newId db user taskInfo)).
  { intros t0 Hin. cbn. unfold next_number.
    destruct (tasks db) as [|a l] using rev_ind; [destruct Hin|]. clear IHl.
    rewrite first_order_desc_snoc.
    apply In_nth_error in Hin as [i Hi].
    assert (Hlen : (i < length (l ++ [a]))%nat)
      by (apply nth_error_Some; congruence).
    rewrite length_app in Hlen. cbn in Hlen.
    assert (Hlast : nth_error (l ++ [a]) (length l) = Some a)
      by (rewrite nth_error_app2, Nat.sub_diag by lia; reflexivity).
    pose proof (Hmono i (length l) t0 a ltac:(lia) Hi Hlast). lia. }
  split; [exact Hlt|].
  intros i j ti tj Hij Hi Hj.
  destruct (Nat.lt_ge_cases j (length (tasks db))) as [Hj'|Hj'].
  - rewrite nth_error_app1 in Hi, Hj by lia. now apply (Hmono i j).
  - rewrite nth_error_app2 in Hj by lia.
    destruct (j - length (tasks db))%nat as [|k] eqn:Ek;
      [|now destruct k].
    injection Hj as <-.
    destruct (Nat.lt_ge_cases i (length (tasks db))) as [Hi'|Hi'].
    + rewrite nth_error_app1 in Hi by lia.
      apply nth_error_In in Hi. apply Hlt in Hi. lia.
    + rewrite nth_error_app2 in Hi by lia.
      replace (i - length (tasks db))%nat with O in Hi by lia.
      injection Hi as <-. lia.
Qed.

(** X5. In a store that a sequence of creations built from no task, every
    task has no comment and no file counted, and its owner id, its owner
    name and the owner its payload stated are all null or all set. *)
Theorem createTasks_fresh_tasks
    (us : list User.t) (cs : list Comment.t) (n : nat)
    (calls : list (Auth * NewTaskInfo.t)) (t : Task.t) :
  In t (tasks (createTasks findUser newId calls (mkDb us [] cs n))) ->
  Task.commentCount t = 0
  /\ Task.fileCount t = 0
  /\ (Task.ownerId t = None <-> Task.owner t = None)
  /\ (Task.ownerName t = None <-> Task.owner t = None).
Proof.
  set (ok := fun t : Task.t =>
    Task.commentCount t = 0 /\ Task.fileCount t = 0
    /\ (Task.ownerId t = None <-> Task.owner t = None)
    /\ (Task.ownerName t = None <-> Task.owner t = None)).
  assert (Hgen : forall calls db,
    (forall t, In t (tasks db) -> ok t) ->
    forall t, In t (tasks (createTasks findUser newId calls db)) -> ok t).
  { clear. intros calls. induction calls as [|c calls IH]; intros db Hdb; [exact Hdb|].
    rewrite createTasks_cons. apply IH.
    unfold commit. rewrite createTask_run.
    destruct (findUser db (fst c)) as [user|]; [|exact Hdb].
    destruct (owner_mismatch (snd c) user); [exact Hdb|].
    cbn [tasks]. intros t Hin. apply in_app_or in Hin as [Hin|[<-|[]]].
    - now apply Hdb.
    - unfold ok. cbn.
      destruct (NewTaskInfo.owner (snd c)); repeat split; intros; congruence. }
  apply Hgen. intros t0 [].
Qed.

Lemma find_all_false {A} (f : A -> bool) (l : list A) :
  (forall x, In x l -> f x = false) -> find f l = None.
Proof.
  induction l as [|a l IH]; intros H; [reflexivity|].
  cbn. rewrite (H a (or_introl eq_refl)). apply IH.
  intros x Hx. apply H. now right.
Qed.

Lemma find_snoc {A} (f : A -> bool) (l : list A) (x : A) :
  find f (l ++ [x])
  = match find f l with
    | Some y => Some y
    | None => if f x then Some x else None
    end.
Proof.
  induction l as [|a l IH]; [reflexivity|].
  cbn. destruct (f a); [reflexivity|exact IH].
Qed.

(** X6. When the store's identifiers are never handed out twice and the
    tasks of the store carry identifiers it handed out, the string a
    returning call gives back is the id of no task before the call and the
    id under which the new task is read after it; tasks that could be read
    before are read unchanged. *)
Theorem createTask_read_back
    (auth : Auth) (taskInfo : NewTaskInfo.t) (db db' : Db) (r : string) :
  (forall a b, newId a = newId b -> a = b) ->
  ids_issued newId db ->
  runStateT (createTask findUser newId auth taskInfo) db = inr (r, db') ->
  get_task db r = None
  /\ (exists t, tasks db' = (tasks db ++ [t])%list /\ get_task db' r = Some t)
  /\ (forall id t0, get_task db id = Some t0 -> get_task db' id = Some t0)
  /\ ids_issued newId db'.
Proof.
  intros Hinj [Ht Hc] H. rewrite createTask_run in H.
  destruct (findUser db auth) as [user|]; [|discriminate].
  destruct (owner_mismatch taskInfo user); [discriminate|].
  injection H as <- <-. unfold Id_toString.
  assert (Hnone : get_task db (newId (nextId db)) = None).
  { unfold get_task. apply find_all_false. intros t Hin.
    destruct (Ht t Hin) as [k [Hk Hid]]. apply String.eqb_neq.
    rewrite Hid. intros E. apply Hinj in E. lia. }
  split; [exact Hnone|]. split; [|split].
  - exists (new_task newId db user taskInfo). split; [reflexivity|].
    unfold get_task in *. cbn [tasks]. rewrite find_snoc, Hnone. cbn.
    now rewrite String.eqb_refl.
  - intros id t0 Hget. unfold get_task in *. cbn [tasks].
    now rewrite find_snoc, Hget.
  - split; cbn [tasks comments nextId].
    + intros t Hin. apply in_app_or in Hin as [Hin|[<-|[]]].
      * destruct (Ht t Hin) as [k [Hk Hid]]. exists k. split; [lia|exact Hid].
      * exists (nextId db). split; [lia|reflexivity].
    + intros c Hin. destruct (Hc c Hin) as [k [Hk Hid]].
      exists k. split; [lia|exact Hid].
Qed.

End BackendMore.

(** ** The status filter: normal forms, round trips, events that change
    nothing *)

Section AppMore.

Variable STATUS_VALUES : list Status.
Variable unary_plus : string -> option Z.

Lemma includes_filter (P : Status -> bool) (l : list Status) (s : Status) :
  includes (filter P l) s = includes l s && P s.
Proof.
  apply eq_true_iff_eq.
  rewrite andb_true_iff, !includes_In, filter_In. reflexivity.
Qed.

Lemma filter_twice {A} (P Q : A -> bool) (l : list A) :
  filter Q (filter P l) = filter (fun x => P x && Q x) l.
Proof.
  induction l as [|a l IH]; [reflexivity|].
  cbn. destruct (P a); cbn; [destruct (Q a)|]; now rewrite IH.
Qed.

Lemma selection_incl {A} (all l : list A) : selection all l -> incl l all.
Proof. intros [P ->] x Hx. now apply filter_In in Hx. Qed.

Lemma selection_fixed (l : list Status) :
  selection STATUS_VALUES l -> filter (includes l) STATUS_VALUES = l.
Proof.
  intros [P ->]. apply filter_ext_in. intros s Hs.
  rewrite includes_filter. now rewrite (proj2 (includes_In _ _) Hs).
Qed.

Lemma AppState_eta (st : AppState) (f : list Status) :
  f = statusFilter st -> setStatusFilter f st = st.
Proof. intros ->. now destruct st. Qed.

(** X7. After a change event with the box checked the selected statuses
    are members of [STATUS_VALUES], listed in its order; an event with the
    box unchecked keeps a filter of that form in that form. *)
Theorem onChangeStatus_selection (st : AppState) (event : ChangeEvent) :
  checked event = true \/ selection STATUS_VALUES (statusFilter st) ->
  selection STATUS_VALUES
    (statusFilter (onChangeStatus STATUS_VALUES unary_plus st event))
  /\ incl (statusFilter (onChangeStatus STATUS_VALUES unary_plus st event))
       STATUS_VALUES.
Proof.
  intros H.
  assert (Hsel : selection STATUS_VALUES
            (statusFilter (onChangeStatus STATUS_VALUES unary_plus st event))).
  { unfold onChangeStatus. cbn. destruct (checked event).
    - now eexists.
    - destruct H as [H|[P HP]]; [discriminate|].
      rewrite HP, filter_twice. now eexists. }
  split; [exact Hsel|now apply selection_incl].
Qed.

(** X8. On a filter in that form, unchecking a selected status and
    checking it again gives back the very state: the same statuses in the
    same order. *)
Theorem onChangeStatus_off_on_exact (st : AppState) (val : string) (v : Status) :
  selection STATUS_VALUES (statusFilter st) ->
  unary_plus val = Some v ->
  In v (statusFilter st) ->
  onChangeStatus STATUS_VALUES unary_plus
    (onChangeStatus STATUS_VALUES unary_plus st (mkChangeEvent val false))
    (mkChangeEvent val true)
  = st.
Proof.
  intros Hsel Hv Hin. unfold onChangeStatus, setStatusFilter.
  cbn [statusFilter sortKey sortOrder value checked]. rewrite Hv.
  destruct st as [sf k o]. cbn [statusFilter sortKey sortOrder] in *. f_equal.
  transitivity (filter (includes sf) STATUS_VALUES); [|now apply selection_fixed].
  apply filter_ext_in. intros s Hs. rewrite includes_filter.
  cbn [strict_eq].
  destruct (Z.eqb_spec s v) as [-> | Hne]; cbn [negb].
  - rewrite orb_true_r. symmetry. now apply includes_In.
  - now rewrite andb_true_r, orb_false_r.
Qed.

(** X9. On a filter in that form, checking a status that is not selected
    and unchecking it again gives back the very state. *)
Theorem onChangeStatus_on_off_exact (st : AppState) (val : string) (v : Status) :
  selection STATUS_VALUES (statusFilter st) ->
  unary_plus val = Some v ->
  ~ In v (statusFilter st) ->
  onChangeStatus STATUS_VALUES unary_plus
    (onChangeStatus STATUS_VALUES unary_plus st (mkChangeEvent val true))
    (mkChangeEvent val false)
  = st.
Proof.
  intros Hsel Hv Hin. unfold onChangeStatus, setStatusFilter.
  cbn [statusFilter sortKey sortOrder value checked]. rewrite Hv.
  destruct st as [sf k o]. cbn [statusFilter sortKey sortOrder] in *. f_equal. rewrite filter_twice.
  transitivity (filter (includes sf) STATUS_VALUES); [|now apply selection_fixed].
  apply filter_ext_in. intros s Hs. cbn [strict_eq].
  destruct (Z.eqb_spec s v) as [-> | Hne]; cbn [negb].
  - rewrite andb_false_r. symmetry. apply not_true_is_false.
    now rewrite includes_In.
  - now rewrite orb_false_r, andb_true_r.
Qed.

(** X10. Firing the same change event twice changes nothing more than
    firing it once, in any state. *)
Theorem onChangeStatus_idempotent (st : AppState) (event : ChangeEvent) :
  onChangeStatus STATUS_VALUES unary_plus
    (onChangeStatus STATUS_VALUES unary_plus st event) event
  = onChangeStatus STATUS_VALUES unary_plus st event.
Proof.
  unfold onChangeStatus, setStatusFilter. cbn [statusFilter sortKey sortOrder].
  destruct (checked event); f_equal.
  - apply filter_ext_in. intros s Hs. rewrite includes_filter.
    rewrite (proj2 (includes_In _ _) Hs). cbn [andb].
    now destruct (includes (statusFilter st) s), (strict_eq s (unary_plus (value event))).
  - rewrite filter_twice. apply filter_ext. intros s.
    now destruct (strict_eq s (unary_plus (value event))).
Qed.

(** X11. A change event whose value converts to no member of
    [STATUS_VALUES] (to NaN, or to another number) leaves a filter in that
    form as it is, checked or unchecked. *)
Theorem onChangeStatus_foreign_value (st : AppState) (event : ChangeEvent) :
  selection STATUS_VALUES (statusFilter st) ->
  (forall v, unary_plus (value event) = Some v -> ~ In v STATUS_VALUES) ->
  onChangeStatus STATUS_VALUES unary_plus st event = st.
Proof.
  intros Hsel Hforeign. unfold onChangeStatus. cbv zeta. apply AppState_eta.
  assert (Hne : forall s, In s STATUS_VALUES ->
                  strict_eq s (unary_plus (value event)) = false).
  { intros s Hs. destruct (unary_plus (value event)) as [v|]; [|reflexivity].
    cbn. apply Z.eqb_neq. intros ->. now apply (Hforeign v). }
  destruct (checked event).
  - transitivity (filter (includes (statusFilter st)) STATUS_VALUES);
      [|now apply selection_fixed].
    apply filter_ext_in. intros s Hs. now rewrite (Hne s Hs), orb_false_r.
  - rewrite <- (filter_ext_in (fun _ => true)).
    + clear. induction (statusFilter st) as [|a l IH]; [reflexivity|].
      cbn. now rewrite IH.
    + intros s Hs. apply (selection_incl _ _ Hsel) in Hs. now rewrite (Hne s Hs).
Qed.

(** X12. Two clicks on the column that is the sort key give back the very
    state; two clicks on another column leave the list sorted by that
    column, descending; after any click the sort key is the column
    clicked. *)
Theorem onChangeSort_twice (st : AppState) (column : string) :
  let once := onChangeSort st (mkMouseEvent column) in
  let twice := onChangeSort once (mkMouseEvent column) in
  sortKey once = column
  /\ (column = sortKey st -> twice = st)
  /\ (column <> sortKey st -> twice = mkAppState (statusFilter st) column DESC).
Proof.
  unfold onChangeSort. cbn.
  destruct (String.eqb_spec (sortKey st) column) as [E|E]; cbn.
  - rewrite (proj2 (String.eqb_eq _ _) E). cbn.
    split; [exact E|]. split; [|congruence]. intros _.
    now destruct st as [f k []].
  - rewrite String.eqb_refl. cbn.
    split; [reflexivity|]. split; [congruence|reflexivity].
Qed.

(** X13. The two handlers do not interfere: a filter change and a click on
    a column give the same state in either order. *)
Theorem onChangeStatus_onChangeSort_commute
    (st : AppState) (event : ChangeEvent) (click : MouseEvent) :
  onChangeSort (onChangeStatus STATUS_VALUES unary_plus st event) click
  = onChangeStatus STATUS_VALUES unary_plus (onChangeSort st click) event.
Proof.
  unfold onChangeSort, onChangeStatus. cbn.
  now destruct (String.eqb (sortKey st) (target_id click)).
Qed.

End AppMore.

(** ** The owner filter *)

Section OwnerMore.

Variable OWNER_VALUES : list string.

Lemma includes_str_In (l : list string) (s : string) :
  includes_str l s = true <-> In s l.
Proof.
  unfold includes_str. rewrite existsb_exists. split.
  - intros [x [Hin E]]. apply String.eqb_eq in E. now subst.
  - intros Hin. exists s. split; [exact Hin|apply String.eqb_refl].
Qed.

Lemma includes_str_filter (P : string -> bool) (l : list string) (s : string) :
  includes_str (filter P l) s = includes_str l s && P s.
Proof.
  apply eq_true_iff_eq.
  rewrite andb_true_iff, !includes_str_In, filter_In. reflexivity.
Qed.

(** X14. The owner filter starts as [OWNER_VALUES] and every change event
    keeps it a selection of [OWNER_VALUES]; on such a filter, unchecking a
    selected owner category and checking it again gives back the very
    list. *)
Theorem onChangeOwner_off_on_exact (ownerFilter : list string) (v : string) :
  selection OWNER_VALUES ownerFilter ->
  In v ownerFilter ->
  selection OWNER_VALUES OWNER_VALUES
  /\ (forall event, selection OWNER_VALUES (onChangeOwner OWNER_VALUES ownerFilter event))
  /\ onChangeOwner OWNER_VALUES
       (onChangeOwner OWNER_VALUES ownerFilter (mkChangeEvent v false))
       (mkChangeEvent v true)
     = ownerFilter.
Proof.
  intros [P HP] Hin. split; [|split].
  - exists (fun _ => true). clear.
    induction OWNER_VALUES as [|a l IH]; [reflexivity|]. cbn. now rewrite <- IH.
  - intros event. unfold onChangeOwner. destruct (checked event).
    + now eexists.
    + rewrite HP, filter_twice. now eexists.
  - unfold onChangeOwner. cbn [checked value].
    transitivity (filter P OWNER_VALUES); [|now symmetry].
    apply filter_ext_in. intros s Hs.
    rewrite includes_str_filter.
    assert (HPs : includes_str ownerFilter s = P s).
    { rewrite HP, includes_str_filter.
      now rewrite (proj2 (includes_str_In _ _) Hs). }
    rewrite HPs.
    destruct (String.eqb_spec s v) as [-> | Hne]; cbn [negb].
    + rewrite orb_true_r. rewrite <- HPs. symmetry. now apply includes_str_In.
    + now rewrite andb_true_r, orb_false_r.
Qed.

End OwnerMore.

(** ** The pages and the comment form *)

Lemma EditTaskPage_unowned (user : QueryResult User.t) (t : Task.t) :
  Task.ownerId t = None ->
  EditTaskPage user (Value t)
  = Renders (Some (main [h1 "You do not have permission to edit this task"])).
Proof.
  intros H. unfold EditTaskPage, Id_equals. rewrite H. now destruct user.
Qed.

(** X15. The edit page renders the form exactly when the task query gave
    a task and the user query gave the user whose id is the task's owner
    id, so a task without an owner is editable by nobody; and it renders
    nothing exactly while the task query is loading. *)
Theorem EditTaskPage_form_iff_owner
    (user : QueryResult User.t) (task : QueryResult Task.t)
    (u : User.t) (t : Task.t) :
  (EditTaskPage user task
   = Renders (Some (main [HeaderWithLogin u; TaskDetailForm u "updateTask" t]))
   <-> user = Value u /\ task = Value t /\ Task.ownerId t = Some (User._id u))
  /\ (Task.ownerId t = None ->
      EditTaskPage user (Value t)
      = Renders (Some (main [h1 "You do not have permission to edit this task"])))
  /\ (EditTaskPage user task = Renders None <-> task = Undefined).
Proof.
  split; [|split].
  - split.
    + unfold EditTaskPage. destruct task as [| |t']; try discriminate.
      destruct user as [| |u']; try discriminate.
      destruct (Id_equals (User._id u') (Task.ownerId t')) eqn:E; [|discriminate].
      cbn. intros H. inversion H; subst.
      repeat split. now apply (proj1 (Id_equals_owner _ _)).
    + intros [-> [-> H]]. apply EditTaskPage_owner. now exists u.
  - now apply EditTaskPage_unowned.
  - split; [|now intros ->].
    unfold EditTaskPage. destruct task as [| |t']; [reflexivity|discriminate|].
    destruct user as [| |u']; try discriminate.
    destruct (Id_equals (User._id u') (Task.ownerId t')); discriminate.
Qed.

(** X16. The task a returning [createTask] persists can be edited, on the
    edit page, by the principal who created it when the payload stated an
    owner, and by nobody when it stated none. *)
Theorem created_task_editable
    {Auth : Type} (findUser : Db -> Auth -> option User.t) (newId : nat -> Id)
    (auth : Auth) (taskInfo : NewTaskInfo.t) (db db' : Db) (r : string) :
  runStateT (createTask findUser newId auth taskInfo) db = inr (r, db') ->
  exists user t,
    findUser db auth = Some user
    /\ tasks db' = (tasks db ++ [t])%list
    /\ (NewTaskInfo.owner taskInfo <> None ->
        EditTaskPage (Value user) (Value t)
        = Renders (Some (main [HeaderWithLogin user;
                               TaskDetailForm user "updateTask" t])))
    /\ (NewTaskInfo.owner taskInfo = None ->
        forall viewer,
          EditTaskPage viewer (Value t)
          = Renders (Some (main [h1 "You do not have permission to edit this task"]))).
Proof.
  intros H. rewrite createTask_run in H.
  destruct (findUser db auth) as [user|]; [|discriminate].
  destruct (owner_mismatch taskInfo user); [discriminate|].
  injection H as _ <-.
  exists user, (new_task newId db user taskInfo).
  split; [reflexivity|]. split; [reflexivity|]. split.
  - intros Ho. apply EditTaskPage_owner. exists user.
    split; [reflexivity|]. cbn.
    now destruct (NewTaskInfo.owner taskInfo).
  - intros Ho viewer. apply EditTaskPage_unowned. cbn. now rewrite Ho.
Qed.

(** X17. After a submit, whichever way the mutation ends, a logged-in user
    sees an empty input and a disabled button; typing a text puts it in the
    input and enables the button exactly when the text is not empty; and
    the form is there exactly when there is a user. *)
Theorem Comments_after_submit {C : Type}
    (saveComment : Id -> string -> Promise unit) (taskId : Id)
    (st : CommentsState) (u : User.t) (comments : QueryResult (list C)) :
  let st' := fst (handleAddComment saveComment taskId st) in
  comment_form (Comments (Value u) comments st') = Some (mkFormView "" true)
  /\ (forall text,
        comment_form (Comments (Value u) comments (onChangeComment text st'))
        = Some (mkFormView text (String.eqb text "")))
  /\ (forall user,
        comment_form (Comments user comments st) <> None <-> exists u', user = Value u').
Proof.
  cbn. split; [reflexivity|]. split.
  - intros text. unfold truthy. now rewrite negb_involutive.
  - intros user. destruct user as [| |u']; cbn; split;
      try congruence; try (intros [u'' H]; discriminate); try (now eexists).
Qed.

(** ** Server-side props *)

Section SlugFacts.

Context {Num : Type}.
Variable to_number : string -> option Num.

(** X18. The [slug] prop is never [undefined] and never the empty string.
    With [second] the second path segment, if there is one: the prop is a
    number exactly when [second] converts to that number, a string exactly
    when [second] is that string, is not empty and converts to NaN (whether
    or not it is "new"), and [null] exactly when there is no second
    segment or it is empty and converts to NaN. *)
Theorem getServerSideProps_slug (params_slug : option (list string)) :
  let second := match params_slug with
                | Some (_ :: s :: _) => Some s
                | _ => None
                end in
  let r := getServerSideProps to_number params_slug in
  r <> SlugUndefined
  /\ r <> SlugString ""
  /\ (forall n, r = SlugNumber n <-> exists s, second = Some s /\ to_number s = Some n)
  /\ (forall s, r = SlugString s <-> second = Some s /\ s <> "" /\ to_number s = None)
  /\ (r = SlugNull <-> second = None \/ (second = Some "" /\ to_number "" = None)).
Proof.
  unfold getServerSideProps.
  destruct params_slug as [[|a [|s l]]|]; cbn [nth_error unary_plus_slug falsy];
    try (repeat split; try discriminate; firstorder congruence).
  unfold truthy. destruct (to_number s) as [n|] eqn:En.
  - repeat split; try discriminate; try (firstorder congruence).
    intros H. exists s. split; congruence.
  - destruct (String.eqb_spec s "") as [-> | Hne]; cbn [negb];
      repeat split; try discriminate; try (firstorder congruence).
Qed.

(** X19. The page opens with a task selected exactly when the route has a
    second path segment that converts to a number, and that number is the
    task number selected; the first segment and any after the second play
    no part. *)
Theorem initial_taskNumber_of_route (params_slug : option (list string)) :
  initial_taskNumber (getServerSideProps to_number params_slug)
  = match params_slug with
    | Some (_ :: s :: _) => to_number s
    | _ => None
    end.
Proof.
  unfold getServerSideProps.
  destruct params_slug as [[|a [|s l]]|]; try reflexivity. cbn.
  destruct (to_number s); [reflexivity|].
  now destruct (truthy s).
Qed.

End SlugFacts.

Lemma falsy_not_set (x : option string) : falsy x = true <-> ~ is_set x.
Proof.
  unfold falsy, is_set, truthy. destruct x as [s|].
  - rewrite negb_involutive, String.eqb_eq. split.
    + intros -> [s' [E H]]. injection E as <-. now apply H.
    + intros H. destruct (string_dec s "") as [E|E]; [exact E|].
      exfalso. apply H. now exists s.
  - split; [|reflexivity]. intros _ [s [E _]]. discriminate.
Qed.

Lemma js_or_chosen (pub priv : option string) (d : string) :
  chosen pub priv d -> js_or pub priv = Some d /\ falsy (js_or pub priv) = false.
Proof.
  intros [Hd [E|[Hpub E]]]; unfold js_or.
  - subst pub. assert (F : falsy (Some d) = false)
      by (unfold falsy, truthy; rewrite negb_involutive; now apply String.eqb_neq).
    now rewrite F.
  - apply falsy_not_set in Hpub. rewrite Hpub. subst priv. split; [reflexivity|].
    unfold falsy, truthy. rewrite negb_involutive. now apply String.eqb_neq.
Qed.

(** X20. When a domain and a client are configured, [getInitialProps]
    ends as [App.getInitialProps] does and, when that resolves, passes its
    props on with the domain and the client added: for each, the public
    variable when it is set to a non-empty string, otherwise the private
    one. *)
Theorem getInitialProps_configured {A : Type}
    (env : Env) (App_getInitialProps : Promise A) (d c : string) :
  chosen (NEXT_PUBLIC_AUTH_DOMAIN env) (AUTH0_DOMAIN env) d ->
  chosen (NEXT_PUBLIC_AUTH_CLIENT env) (AUTH0_CLIENT_ID env) c ->
  getInitialProps env App_getInitialProps
  = match App_getInitialProps with
    | Resolved a => Resolved (mkInitialProps a (Some d) (Some c))
    | Rejected err => Rejected err
    end.
Proof.
  intros Hd Hc. unfold getInitialProps.
  destruct (js_or_chosen _ _ _ Hd) as [-> Fd].
  destruct (js_or_chosen _ _ _ Hc) as [-> Fc].
  now rewrite Fd, Fc.
Qed.

(** X21. [getInitialProps] never resolves with a domain or a client that
    is undefined or empty. With neither domain variable set to a non-empty
    string it fails with "Auth domain not found", whatever the rest; with
    a domain but neither client variable set it fails with "Auth client
    not found"; in both cases whatever [App.getInitialProps] would do. *)
Theorem getInitialProps_missing {A : Type}
    (env : Env) (App_getInitialProps : Promise A) :
  (forall p, getInitialProps env App_getInitialProps = Resolved p ->
     is_set (authDomain p) /\ is_set (authClient p))
  /\ (~ is_set (NEXT_PUBLIC_AUTH_DOMAIN env) -> ~ is_set (AUTH0_DOMAIN env) ->
      getInitialProps env App_getInitialProps = Rejected "Auth domain not found")
  /\ (is_set (NEXT_PUBLIC_AUTH_DOMAIN env) \/ is_set (AUTH0_DOMAIN env) ->
      ~ is_set (NEXT_PUBLIC_AUTH_CLIENT env) -> ~ is_set (AUTH0_CLIENT_ID env) ->
      getInitialProps env App_getInitialProps = Rejected "Auth client not found").
Proof.
  assert (Hor : forall a b, falsy (js_or a b) = true <-> ~ is_set a /\ ~ is_set b).
  { intros a b. unfold js_or. destruct (falsy a) eqn:Fa.
    - rewrite falsy_not_set. apply falsy_not_set in Fa. tauto.
    - split; [congruence|]. intros [Ha _]. apply falsy_not_set in Ha. congruence. }
  unfold getInitialProps. split; [|split].
  - intros p.
    destruct (falsy (js_or (NEXT_PUBLIC_AUTH_DOMAIN env) (AUTH0_DOMAIN env))) eqn:Fd;
      [discriminate|].
    destruct (falsy (js_or (NEXT_PUBLIC_AUTH_CLIENT env) (AUTH0_CLIENT_ID env))) eqn:Fc;
      [discriminate|].
    destruct App_getInitialProps as [a|err]; [|discriminate].
    intros H. injection H as <-. cbn.
    split.
    + destruct (js_or (NEXT_PUBLIC_AUTH_DOMAIN env) (AUTH0_DOMAIN env)) as [s|];
        [|discriminate].
      exists s. split; [reflexivity|]. intros ->. discriminate.
    + destruct (js_or (NEXT_PUBLIC_AUTH_CLIENT env) (AUTH0_CLIENT_ID env)) as [s|];
        [|discriminate].
      exists s. split; [reflexivity|]. intros ->. discriminate.
  - intros H1 H2. now rewrite (proj2 (Hor _ _) (conj H1 H2)).
  - intros Hd H1 H2.
    destruct (falsy (js_or (NEXT_PUBLIC_AUTH_DOMAIN env) (AUTH0_DOMAIN env))) eqn:Fd.
    + apply Hor in Fd. tauto.
    + now rewrite (proj2 (Hor _ _) (conj H1 H2)).
Qed.

(** ** Concrete runs of the properties above *)

(** X2 on a call without a principal whose payload names Bob as owner: the
    identity error comes first. *)
Lemma createTask_throws_unchanged_witness :
  commit (createTask findUser_by_token tally None (task_of (Some bob_info))) store0
  = store0
  /\ ((findUser_by_token store0 None = None
       /\ "Error creating task: User identity not found"
          = "Error creating task: User identity not found")
      \/ (exists user o,
            findUser_by_token store0 None = Some user
            /\ NewTaskInfo.owner (task_of (Some bob_info)) = Some o
            /\ UserInfo.id o <> ""
            /\ UserInfo.id o <> Id_toString (User._id user)
            /\ "Error creating task: User identity not found"
               = "Error creating task: Current user and task owner do not match")).
Proof.
  apply (createTask_throws_unchanged findUser_by_token tally None
           (task_of (Some bob_info)) store0).
  reflexivity.
Defined.

(** X4 on [store37]: the new task gets 8, above 3 and 7. *)
Lemma createTask_keeps_monotone_witness :
  exists t,
    tasks store378 = (tasks store37 ++ [t])%list
    /\ (forall t0, In t0 (tasks store37) -> Task.number t0 < Task.number t)
    /\ numbers_monotone (tasks store378).
Proof.
  apply (createTask_keeps_monotone findUser_by_token tally ann_auth (task_of None)
           store37 store378 "ii#").
  - exact store37_monotone.
  - reflexivity.
Defined.

(** X5 on the task Ann creates for herself in [store0]. *)
Lemma createTasks_fresh_tasks_witness :
  Task.commentCount ann_task = 0
  /\ Task.fileCount ann_task = 0
  /\ (Task.ownerId ann_task = None <-> Task.owner ann_task = None)
  /\ (Task.ownerName ann_task = None <-> Task.owner ann_task = None).
Proof.
  apply (createTasks_fresh_tasks findUser_by_token tally [ann] [] O
           [(ann_auth, task_of (Some ann_info))] ann_task).
  left. reflexivity.
Defined.

Lemma ids_issued_store0 : ids_issued tally store0.
Proof. split; intros ? []. Qed.

(** X6 on the same creation, with the identifiers of [tally]. *)
Lemma createTask_read_back_witness :
  get_task store0 "#" = None
  /\ (exists t, tasks store1 = (tasks store0 ++ [t])%list /\ get_task store1 "#" = Some t)
  /\ (forall id t0, get_task store0 id = Some t0 -> get_task store1 id = Some t0)
  /\ ids_issued tally store1.
Proof.
  apply (createTask_read_back findUser_by_token tally ann_auth
           (task_of (Some ann_info)) store0 store1 "#").
  - exact tally_inj.
  - exact ids_issued_store0.
  - reflexivity.
Defined.

(** X7 on the initial state, checking the box of status 2. *)
Lemma onChangeStatus_selection_witness :
  selection STATUS_VALUES3
    (statusFilter (onChangeStatus STATUS_VALUES3 unary_plus3 app0 (mkChangeEvent "2" true)))
  /\ incl (statusFilter (onChangeStatus STATUS_VALUES3 unary_plus3 app0
                           (mkChangeEvent "2" true)))
       STATUS_VALUES3.
Proof.
  apply (onChangeStatus_selection STATUS_VALUES3 unary_plus3 app0
           (mkChangeEvent "2" true)).
  left. reflexivity.
Defined.

Lemma app0_selection : selection STATUS_VALUES3 (statusFilter app0).
Proof. exists below_2. reflexivity. Qed.

(** X8 on the initial state and status 1, which is selected. *)
Lemma onChangeStatus_off_on_exact_witness :
  onChangeStatus STATUS_VALUES3 unary_plus3
    (onChangeStatus STATUS_VALUES3 unary_plus3 app0 (mkChangeEvent "1" false))
    (mkChangeEvent "1" true)
  = app0.
Proof.
  apply (onChangeStatus_off_on_exact STATUS_VALUES3 unary_plus3 app0 "1" 1).
  - exact app0_selection.
  - reflexivity.
  - right. left. reflexivity.
Defined.

(** X9 on the initial state and status 2, which is not selected. *)
Lemma onChangeStatus_on_off_exact_witness :
  onChangeStatus STATUS_VALUES3 unary_plus3
    (onChangeStatus STATUS_VALUES3 unary_plus3 app0 (mkChangeEvent "2" true))
    (mkChangeEvent "2" false)
  = app0.
Proof.
  apply (onChangeStatus_on_off_exact STATUS_VALUES3 unary_plus3 app0 "2" 2).
  - exact app0_selection.
  - reflexivity.
  - intros [H|[H|[]]]; discriminate.
Defined.

(** X11 on the initial state and a value that converts to NaN. *)
Lemma onChangeStatus_foreign_value_witness :
  onChangeStatus STATUS_VALUES3 unary_plus3 app0 (mkChangeEvent "done" true) = app0.
Proof.
  apply (onChangeStatus_foreign_value STATUS_VALUES3 unary_plus3 app0
           (mkChangeEvent "done" true)).
  - exact app0_selection.
  - intros v H. discriminate.
Defined.

(** X14 on the initial owner filter and the category "Others". *)
Lemma onChangeOwner_off_on_exact_witness :
  selection OWNER_VALUES3 OWNER_VALUES3
  /\ (forall event, selection OWNER_VALUES3 (onChangeOwner OWNER_VALUES3 OWNER_VALUES3 event))
  /\ onChangeOwner OWNER_VALUES3
       (onChangeOwner OWNER_VALUES3 OWNER_VALUES3 (mkChangeEvent "Others" false))
       (mkChangeEvent "Others" true)
     = OWNER_VALUES3.
Proof.
  apply (onChangeOwner_off_on_exact OWNER_VALUES3 OWNER_VALUES3 "Others").
  - exists all_owners. reflexivity.
  - right. left. reflexivity.
Defined.

(** X16 on the task Ann creates for herself. *)
Lemma created_task_editable_witness :
  exists user t,
    findUser_by_token store0 ann_auth = Some user
    /\ tasks store1 = (tasks store0 ++ [t])%list
    /\ (NewTaskInfo.owner (task_of (Some ann_info)) <> None ->
        EditTaskPage (Value user) (Value t)
        = Renders (Some (main [HeaderWithLogin user;
                               TaskDetailForm user "updateTask" t])))
    /\ (NewTaskInfo.owner (task_of (Some ann_info)) = None ->
        forall viewer,
          EditTaskPage viewer (Value t)
          = Renders (Some (main [h1 "You do not have permission to edit this task"]))).
Proof.
  apply (created_task_editable findUser_by_token tally ann_auth
           (task_of (Some ann_info)) store0 store1 "#").
  reflexivity.
Defined.

Lemma empty_not_set : ~ is_set (Some "").
Proof. intros [s [E H]]. injection E as <-. now apply H. Qed.

(** X20 on [sample_env]: the public domain is empty, so the private one is
    taken; the public client is taken. *)
Lemma getInitialProps_configured_witness :
  getInitialProps sample_env (Resolved 7)
  = Resolved (mkInitialProps 7 (Some "dev.auth0.example") (Some "client-1")).
Proof.
  apply (getInitialProps_configured sample_env (Resolved 7)
           "dev.auth0.example" "client-1").
  - split; [discriminate|]. right. split; [exact empty_not_set|reflexivity].
  - split; [discriminate|]. left. reflexivity.
Defined.

(** The routes of the task list page, with [unary_plus3] as the
    conversion: a task number, the new-task route, the bare list. *)
Example getServerSideProps_routes :
  map (getServerSideProps unary_plus3)
    [Some ["task"; "2"]; Some ["task"; "new"]; Some ["task"]; Some []; None;
     Some ["task"; "1"; "edit"]]
  = [SlugNumber 2; SlugString "new"; SlugNull; SlugNull; SlugNull; SlugNumber 1].
Proof. reflexivity. Qed.
